(** * images/index.js: the screenshot pipeline

    A shallow embedding of the script that serves the harness page from a
    local Express server, drives a headless browser over every sample of the
    examples directory, writes one full-page screenshot per sample and looks
    up a stored md5 sum for it.

    JavaScript values are rendered as follows: numbers are IEEE-754 binary64
    values ([spec_float]), strings and buffers are byte strings kept in their
    UTF-8 encoding (so decoding a buffer read from disk is the identity on
    this representation), objects used as maps are [gmap]s, and asynchronous
    functions are computations in a state-and-exception monad: every [await]
    of the script is sequential, so a rejected promise is a thrown error.

    The embedding starts at the call [takeImageStrip()], with the
    screenshots directory in place. An HTTP request is its URL. A property
    of an object that can hold [null] is an [option], [None] being [null]. *)

From Stdlib Require Import ZArith NArith List String Ascii Bool Lia.
From Stdlib Require Import SpecFloat.
From stdpp Require Import base option list strings gmap.

Local Open Scope string_scope.
Local Open Scope Z_scope.

(** ** JavaScript strings *)

(** [s.startsWith(pat)]. *)
Fixpoint startsWith (s pat : string) {struct pat} : bool :=
  match pat, s with
  | EmptyString, _ => true
  | String _ _, EmptyString => false
  | String c pat', String d s' => if Ascii.eqb c d then startsWith s' pat' else false
  end.

(** Position of the first occurrence of [pat] in [s], counted from [i]
    for the first character of [s]; [-1] when there is none. *)
Fixpoint indexOf_from (i : Z) (s pat : string) : Z :=
  if startsWith s pat then i
  else match s with
       | EmptyString => -1
       | String _ s' => indexOf_from (i + 1) s' pat
       end.

(** [s.indexOf(pat)]. *)
Definition indexOf (s pat : string) : Z := indexOf_from 0 s pat.

(** [arr.includes(value)] on an array of strings. *)
Definition includes (arr : list string) (value : string) : bool :=
  existsb (String.eqb value) arr.

(** Truthiness of a string: only the empty string is falsy. *)
Definition truthy (s : string) : bool :=
  match s with
  | EmptyString => false
  | String _ _ => true
  end.

(** ** JavaScript numbers *)

Abbreviation number := spec_float.

Definition isNaN (value : number) : bool :=
  match value with
  | S754_nan => true
  | _ => false
  end.

(** The literals [0] and [1] as binary64 values. *)
Definition num0 : number := S754_zero false.
Definition num1 : number := S754_finite false 4503599627370496 (-52).

(** [a <= b] and [a < b]; both are false as soon as one side is NaN. *)
Definition num_le (a b : number) : bool := SFleb a b.
Definition num_lt (a b : number) : bool := SFltb a b.

(** ** Errors and console *)

Inductive Error :=
| ENOENT (path : string)          (* fs: the file or directory cannot be read *)
| ArgumentError                   (* command-line-args rejects the arguments *)
| LaunchError                     (* puppeteer.launch rejects *)
| NavigationError (path : string) (* newPage or page.goto rejects *)
| TimeoutError (ms : N)           (* waitForFunction: flag not seen in time *)
| CloseError.                     (* browser.close rejects *)

Inductive LogEntry :=
| PageLog (text : string)         (* console.log('PAGE LOG:', text) *)
| ErrorLog (error : Error).       (* console.log(error) *)

(** ** Settings *)

(** The settings object; a property is [None] when it holds [null]. *)
Record Settings := mkSettings {
  renderer : option string;
  resolution : option number;
  sampleRate : option number;
}.

(** How an option appears on the command line. *)
Inductive Argument :=
| NotGiven               (* the option is absent *)
| NoValue                (* [--name] with no value after it *)
| Value (val : string).  (* [--name val] *)

(** The command line, option by option. *)
Record CommandLine := mkCommandLine {
  cl_resolution : Argument;
  cl_sampleRate : Argument;
  cl_renderer : Argument;
}.

(** A page opened on the harness: the four query parameters of the URL,
    the first three as they stand in the settings. *)
Record PageRequest := mkPageRequest {
  pr_renderer : option string;
  pr_sampleRate : option number;
  pr_resolution : option number;
  pr_path : string;
}.

(** ** The environment

    Everything the script uses and does not define: built-ins of the
    runtime, libraries, and the answers of the outside world. *)
Record Env := mkEnv {
  (** [Number(val)] on a string. *)
  Number : string -> number;
  (** The hex digest md5-file computes for a file of this content. *)
  md5 : string -> string;
  (** Express: does the route pattern match the request URL. *)
  route_match : string -> string -> bool;
  (** [process.argv] as seen by command-line-args; [None] when it throws. *)
  argv : option CommandLine;
  (** Does [puppeteer.launch] resolve. *)
  launches : bool;
  (** [fs.readdir]: the entries of a directory, [None] on error. *)
  listing : string -> option (list string);
  (** Does the page open ([newPage] and [goto] resolve). *)
  navigates : PageRequest -> bool;
  (** What the page prints on its console. *)
  page_console : PageRequest -> list string;
  (** Does [window._finished] become true within that many milliseconds. *)
  finished_within : PageRequest -> N -> bool;
  (** The full-page image of the page once it has finished. *)
  rendering : PageRequest -> string;
  (** Does [browser.close] resolve. *)
  closes : bool;
}.

(** ** State and computations *)

(** What a file read gives: a string when an encoding is asked for, a
    buffer otherwise. *)
Inductive Data :=
| Str (s : string)
| Buf (b : string).

Definition toString (d : Data) : string :=
  match d with
  | Str s => s
  | Buf b => b
  end.

(** A route of the Express application with the content cached for it. *)
Record Route := mkRoute {
  route_path : string;
  route_type : string;
  route_data : Data;
}.

Record State := mkState {
  (** The files on disk, by path. *)
  files : gmap string string;
  (** The lines printed by [console.log], oldest first. *)
  console : list LogEntry;
  (** The manifest routes of the application once it listens on 8080. *)
  listening : option (list Route);
  (** Has the browser been launched and not closed since. *)
  browser_open : bool;
  (** The pages opened on the harness, oldest first. *)
  pages : list PageRequest;
  (** Does another process hold port 8080. *)
  port_taken : bool;
}.

(** How a computation ends: it returns, it throws (a rejected promise),
    it ends the process with [process.exit], or the process dies of an
    error raised outside of every [try], which no [catch] sees. *)
Inductive Outcome (A : Type) :=
| Returned (a : A)
| Thrown (error : Error)
| Exited (code : Z)
| Crashed.

Arguments Returned {A} a.
Arguments Thrown {A} error.
Arguments Exited {A} code.
Arguments Crashed {A}.

Definition Run (A : Type) : Type := State -> Outcome A * State.

Definition ret {A} (a : A) : Run A := fun st => (Returned a, st).

Definition throw {A} (error : Error) : Run A := fun st => (Thrown error, st).

Definition bind {A B} (m : Run A) (k : A -> Run B) : Run B :=
  fun st =>
    match m st with
    | (Returned a, st') => k a st'
    | (Thrown error, st') => (Thrown error, st')
    | (Exited code, st') => (Exited code, st')
    | (Crashed, st') => (Crashed, st')
    end.

(** [try { body } catch (err) { handler }]: only a thrown error reaches
    the handler. *)
Definition try_catch {A} (body : Run A) (handler : Error -> Run A) : Run A :=
  fun st =>
    match body st with
    | (Thrown error, st') => handler error st'
    | r => r
    end.

Declare Scope run_scope.
Delimit Scope run_scope with run.
Notation "x <- m ;; k" := (bind m (fun x => k))
  (at level 100, m at next level, right associativity) : run_scope.
Notation "m ;; k" := (bind m (fun _ => k))
  (at level 100, right associativity) : run_scope.
Local Open Scope run_scope.

(** [for (let i = 0; i < xs.length; i += 1) { await body(xs[i]); }] *)
Fixpoint forEach {A} (xs : list A) (body : A -> Run unit) : Run unit :=
  match xs with
  | [] => ret tt
  | x :: xs' => body x ;; forEach xs' body
  end.

(** [await Promise.all(xs.map(async (x) => body(x)))], the reads taken in
    the order of the array. *)
Fixpoint mapAll {A B} (xs : list A) (body : A -> Run B) : Run (list B) :=
  match xs with
  | [] => ret []
  | x :: xs' => y <- body x ;; ys <- mapAll xs' body ;; ret (y :: ys)
  end.

(** [fs.promises.readFile(path, encoding)]. *)
Definition readFile (path : string) (encoding : option string) : Run Data :=
  fun st =>
    match files st !! path with
    | Some content =>
        (Returned (match encoding with
                   | Some _ => Str content
                   | None => Buf content
                   end), st)
    | None => (Thrown (ENOENT path), st)
    end.

Definition console_log (entry : LogEntry) : Run unit :=
  fun st =>
    (Returned tt,
     mkState (files st) (console st ++ [entry]) (listening st)
             (browser_open st) (pages st) (port_taken st)).

Definition process_exit {A} (code : Z) : Run A := fun st => (Exited code, st).

(** [setTimeout] based pause; time is not part of the state. *)
Definition wait (time : N) : Run unit := ret tt.

(** ** The script *)

Definition examplesDirectory : string := "../examples/".
Definition destinationDirectory : string := "./screenshots".
Definition md5Directory : string := "./md5sum/lottie_web".

Record FileEntry := mkFile {
  path : string;
  filePath : string;
  type : string;
}.

Definition filesData : list FileEntry :=
  [ mkFile "/js/main.js" "./js/main.js" "js";
    mkFile "/js/screenshot.js" "./js/screenshot.js" "js";
    mkFile "/js/screenshot_skottie.js" "./js/screenshot_skottie.js" "js";
    mkFile "/js/canvasSnapshot.js" "./js/canvasSnapshot.js" "js";
    mkFile "/js/wait.js" "./js/wait.js" "js";
    mkFile "/lottie.js" "node_modules/lottie-web/build/player/lottie.min.js" "js";
    mkFile "/canvaskit.js" "node_modules/canvaskit-wasm/bin/full/canvaskit.js" "js";
    mkFile "/lottie.json" "../examples/rectangle.json" "json";
    mkFile "/screenshot.html" "./screenshot.html" "html";
    mkFile "/canvasKit.wasm" "node_modules/canvaskit-wasm/bin/full/canvaskit.wasm" "wasm" ].

Definition encodingMap : gmap string string :=
  {[ "js" := "utf8"; "json" := "utf8"; "html" := "utf8" ]}.

Definition getEncoding (fileType : string) : option string :=
  encodingMap !! fileType.

Definition contentTypeMap : gmap string (gmap string string) :=
  {[ "js" := {[ "Content-Type" := "application/javascript" ]};
     "json" := {[ "Content-Type" := "application/json" ]};
     "html" := {[ "Content-Type" := "text/html; charset=utf-8" ]};
     "wasm" := {[ "Content-Type" := "application/wasm" ]} ]}.

(** [undefined] headers write no header. *)
Definition getContentTypeHeader (fileType : string) : gmap string string :=
  default ∅ (contentTypeMap !! fileType).

(** *** The HTTP side *)

Record Request := mkRequest {
  originalUrl : string;
}.

(** A response: the status line, the headers the handler writes itself,
    and the body. *)
Record Response := mkResponse {
  status : Z;
  headers : gmap string string;
  body : Data;
}.

(** [res.send(text)] on a fresh response: Express keeps the default
    status 200. *)
Definition res_send (text : string) : Response :=
  mkResponse 200 ∅ (Str text).

(** [res.writeHead(code, hdrs); res.end(data)]. *)
Definition res_writeHead_end (code : Z) (hdrs : gmap string string)
    (data : Data) : Response :=
  mkResponse code hdrs data.

(** Express answers 404 when no route matches. *)
Definition res_notFound : Response := mkResponse 404 ∅ (Str EmptyString).

Section Script.

Variable E : Env.

(** *** getSettings *)

Definition resolution_type (val : string) : number :=
  let value := Number E val in
  if isNaN value || num_le value num0 then num1 else value.

Definition sampleRate_type (val : string) : number :=
  let value := Number E val in
  if isNaN value || num_le value num0 then num1 else value.

Definition renderer_type (value : string) : string :=
  if includes ["svg"; "canvas"; "skottie"] value then value else "svg".

Definition defaultSettings : Settings :=
  {| renderer := Some "svg"; resolution := Some num1; sampleRate := Some num1 |}.

(** The object command-line-args builds: one property per option that
    appears on the command line; the outer [None] is a property that is
    not there. *)
Record Parsed := mkParsed {
  parsed_resolution : option (option number);
  parsed_sampleRate : option (option number);
  parsed_renderer : option (option string);
}.

(** The property command-line-args builds for one option: none when the
    option is absent, [null] when it stands without a value, in which case
    the [type] function is not called, and otherwise what the [type]
    function makes of the value. *)
Definition parse_argument {A} (type : string -> A) (arg : Argument)
    : option (option A) :=
  match arg with
  | NotGiven => None
  | NoValue => Some None
  | Value val => Some (Some (type val))
  end.

Definition commandLineArgs : Run Parsed :=
  match argv E with
  | Some cl =>
      ret {| parsed_resolution := parse_argument resolution_type (cl_resolution cl);
             parsed_sampleRate := parse_argument sampleRate_type (cl_sampleRate cl);
             parsed_renderer := parse_argument renderer_type (cl_renderer cl) |}
  | None => throw ArgumentError
  end.

Definition getSettings : Run Settings :=
  parsed <- commandLineArgs ;;
  ret {| renderer := default (renderer defaultSettings) (parsed_renderer parsed);
         resolution := default (resolution defaultSettings) (parsed_resolution parsed);
         sampleRate := default (sampleRate defaultSettings) (parsed_sampleRate parsed) |}.

(** *** startServer *)

(** The handler registered for a manifest file. *)
Definition manifestRoute (route : Route) (req : Request) : Run Response :=
  ret (res_writeHead_end 200 (getContentTypeHeader (route_type route))
                         (route_data route)).

(** The handler of ['/*']. *)
Definition proxyRoute (req : Request) : Run Response :=
  try_catch
    (if decide (indexOf (originalUrl req) ".json" <> -1) then
       file <- readFile (".." ++ originalUrl req) (Some "utf8") ;;
       ret (res_send (toString file))
     else
       data <- readFile (".." ++ originalUrl req) None ;;
       ret (res_writeHead_end 200 {[ "Content-Type" := "image/jpeg" ]} data))
    (fun err => ret (res_send EmptyString)).

(** [app.listen('8080')]. The call is not awaited and the server has no
    ['error'] handler: when another process holds the port, the call still
    returns and the ['error'] event of the server, raised as soon as the
    script yields and before its next step, ends the process with status 1
    outside of the [try] of [takeImageStrip]. *)
Definition app_listen (routes : list Route) : Run unit :=
  fun st =>
    if port_taken st then (Crashed, st)
    else
      (Returned tt,
       mkState (files st) (console st) (Some routes) (browser_open st)
               (pages st) (port_taken st)).

Definition startServer : Run unit :=
  routes <- mapAll filesData (fun file =>
    fileData <- readFile (filePath file) (getEncoding (type file)) ;;
    ret (mkRoute (path file) (type file) fileData)) ;;
  app_listen routes.

(** The application answering a request, as far as the script sets it
    up: the first route that matches, the manifest routes before ['/*'].
    What Express answers on its own account to a conditional request or to
    a malformed URL is not part of it. *)
Definition respond (routes : list Route) (req : Request) : Run Response :=
  match find (fun route => route_match E (route_path route) (originalUrl req)) routes with
  | Some route => manifestRoute route req
  | None =>
      if route_match E "/*" (originalUrl req) then proxyRoute req
      else ret res_notFound
  end.

(** *** The browser *)

Definition getBrowser : Run unit :=
  fun st =>
    if launches E then
      (Returned tt,
       mkState (files st) (console st) (listening st) true (pages st)
               (port_taken st))
    else (Thrown LaunchError, st).

Definition browser_close : Run unit :=
  fun st =>
    if closes E then
      (Returned tt,
       mkState (files st) (console st) (listening st) false (pages st)
               (port_taken st))
    else (Thrown CloseError, st).

(** The page is identified by the parameters of its URL. Its console
    lines are forwarded to the script's console; they are taken as printed
    when the page opens, and the page is recorded once it has opened. *)
Definition startPage (settings : Settings) (path : string) : Run PageRequest :=
  let targetURL :=
    {| pr_renderer := renderer settings;
       pr_sampleRate := sampleRate settings;
       pr_resolution := resolution settings;
       pr_path := path |} in
  fun st =>
    if navigates E targetURL then
      (Returned targetURL,
       mkState (files st)
               (console st ++ map PageLog (page_console E targetURL))
               (listening st) (browser_open st) (pages st ++ [targetURL])
               (port_taken st))
    else (Thrown (NavigationError path), st).

(** [page.waitForFunction('window._finished === true', {timeout})]: it
    resolves when the flag is seen in time and rejects with the timeout
    error otherwise; a page does not fail in another way here. *)
Definition page_waitForFunction (page : PageRequest) (timeout : N) : Run unit :=
  fun st =>
    if finished_within E page timeout then (Returned tt, st)
    else (Thrown (TimeoutError timeout), st).

(** [page.screenshot({path, fullPage: true})]; the image is taken to be
    written. *)
Definition page_screenshot (page : PageRequest) (path : string) : Run unit :=
  fun st =>
    (Returned tt,
     mkState (<[path := rendering E page]> (files st)) (console st)
             (listening st) (browser_open st) (pages st) (port_taken st)).

Definition createFilmStrip (page : PageRequest) (path : string) : Run unit :=
  page_waitForFunction page 20000 ;;
  page_screenshot page path.

(** *** Files and check sums *)

Definition getDirFiles (directory : string) : Run (list string) :=
  match listing E directory with
  | Some files => ret files
  | None => throw (ENOENT directory)
  end.

Definition getFileAsString (path : string) : Run string :=
  try_catch
    (fileBuffer <- readFile path None ;;
     ret (toString fileBuffer))
    (fun err => ret EmptyString).

Definition md5File (filePath : string) : Run string :=
  fun st =>
    match files st !! filePath with
    | Some content => (Returned (md5 E content), st)
    | None => (Thrown (ENOENT filePath), st)
    end.

(** The three ways through [checkMD5Sum]; each of them is empty in the
    source. *)
Inductive Md5Branch :=
| NewFile      (* no stored value *)
| Changed      (* the stored value differs from the fresh one *)
| Unchanged.   (* the stored value is the fresh one *)

Definition checkMD5Sum_branch (fileName filePath : string) : Run Md5Branch :=
  let md5FilePath := md5Directory ++ "/" ++ fileName ++ ".md5" in
  md5StoredValue <- getFileAsString md5FilePath ;;
  if negb (truthy md5StoredValue) then
    ret NewFile
  else
    md5Value <- md5File filePath ;;
    if negb (String.eqb md5Value md5StoredValue) then ret Changed
    else ret Unchanged.

Definition checkMD5Sum (fileName filePath : string) : Run unit :=
  checkMD5Sum_branch fileName filePath ;; ret tt.

(** *** The pipeline *)

Definition processPage (settings : Settings) (directory file : string) : Run unit :=
  page <- startPage settings (directory ++ file) ;;
  let filePath := destinationDirectory ++ "/" ++ file ++ ".png" in
  createFilmStrip page filePath ;;
  checkMD5Sum file filePath.

Definition jsonFilter (files : list string) : list string :=
  filter (fun file => indexOf file ".json" <> -1) files.

Definition iteratePages (settings : Settings) : Run unit :=
  files <- getDirFiles examplesDirectory ;;
  let jsonFiles := jsonFilter files in
  forEach jsonFiles (fun file => processPage settings examplesDirectory file).

Definition takeImageStrip : Run unit :=
  try_catch
    (startServer ;;
     wait 500 ;;
     settings <- getSettings ;;
     getBrowser ;;
     iteratePages settings ;;
     browser_close ;;
     process_exit 0)
    (fun error => console_log (ErrorLog error)).

End Script.

(** ** The process *)

Inductive ProcessStatus :=
| Terminated (code : Z)
| StillRunning.

(** What becomes of the process once [takeImageStrip()] has settled.
    [process.exit(code)] ends it with that code. Otherwise Node keeps the
    process alive as long as the HTTP listener or the browser is there, and
    ends it when nothing is left to do: with status 0 as no exit code was
    assigned, with status 1 for a rejection nobody handles. An error
    raised outside of every [try] ends it with status 1. *)
Definition process_status {A} (r : Outcome A * State) : ProcessStatus :=
  match r with
  | (Exited code, _) => Terminated code
  | (Thrown _, _) => Terminated 1
  | (Crashed, _) => Terminated 1
  | (Returned _, st) =>
      match listening st with
      | Some _ => StillRunning
      | None => if browser_open st then StillRunning else Terminated 0
      end
  end.

(** The state the script starts in, port 8080 being free. *)
Definition boot (disk : gmap string string) : State :=
  mkState disk [] None false [] false.

(** The same start with port 8080 held by another process. *)
Definition boot_port_taken (disk : gmap string string) : State :=
  mkState disk [] None false [] true.

(** ** A sample environment

    Concrete built-ins and a concrete outside world, to run the script on. *)

(** The integer [z] as a binary64 value. *)
Definition num_of_Z (z : Z) : number := binary_normalize 53 1024 z 0 false.

Fixpoint digits_value (acc : Z) (s : string) : option Z :=
  match s with
  | EmptyString => Some acc
  | String c s' =>
      let d := Z.of_N (N_of_ascii c) - 48 in
      if (0 <=? d) && (d <=? 9) then digits_value (10 * acc + d) s' else None
  end.

(** [Number] on strings of decimal digits, the empty string included;
    the sample conversion answers NaN on every other string. *)
Definition digits_Number (s : string) : number :=
  match digits_value 0 s with
  | Some z => num_of_Z z
  | None => S754_nan
  end.

(** A route matches its own path, and ['/*'] matches every URL. *)
Definition exact_route_match (pattern url : string) : bool :=
  String.eqb pattern "/*" || String.eqb pattern url.

(** The sample world: [argv] is given, the browser starts and stops, the
    examples directory holds [a.json], [b.json] and [c.txt], every page
    opens, and a page finishes unless its sample is [stuck]. *)
Definition sampleEnv (cl : option CommandLine) (stuck : string -> bool) : Env :=
  {| Number := digits_Number;
     md5 := fun content => "md5 of " ++ content;
     route_match := exact_route_match;
     argv := cl;
     launches := true;
     listing := fun directory =>
       if String.eqb directory "../examples/"
       then Some ["a.json"; "b.json"; "c.txt"] else None;
     navigates := fun _ => true;
     page_console := fun page => ["loaded " ++ pr_path page];
     finished_within := fun page _ => negb (stuck (pr_path page));
     rendering := fun page => "image of " ++ pr_path page;
     closes := true |}.

Definition noArguments : option CommandLine :=
  Some (mkCommandLine NotGiven NotGiven NotGiven).

(** A disk holding every file of the manifest, and nothing else. *)
Definition manifestDisk : gmap string string :=
  list_to_map (map (fun file => (filePath file, "content of " ++ filePath file)) filesData).

(** Arguments: a number, a word where a number is expected, and a
    renderer the script does not know. *)
Definition sampleArguments : option CommandLine :=
  Some (mkCommandLine (Value "2") (Value "fast") (Value "webgl")).

(** [--resolution] alone, and [--renderer] alone: options without a
    value. *)
Definition bareResolution : option CommandLine :=
  Some (mkCommandLine NoValue NotGiven NotGiven).

Definition bareRenderer : option CommandLine :=
  Some (mkCommandLine NotGiven NotGiven NoValue).

(** The sample environment with every page finishing. *)
Definition quietEnv : Env := sampleEnv sampleArguments (fun _ => false).

(** A disk with one sample, a file outside the examples directory, a
    screenshot and the sum stored for it. *)
Definition sampleDisk : gmap string string :=
  {[ "../examples/a.json" := "{}";
     "../../notes.json.txt" := "secret";
     "./screenshots/a.json.png" := "image";
     "./md5sum/lottie_web/a.json.md5" := "old sum" ]}.

(** ** Notions the properties are stated with *)

(** [pat] occurs somewhere in [s]. *)
Definition contains (s pat : string) : Prop :=
  exists before after, s = before ++ pat ++ after.

(** A number that is not NaN and is above zero. *)
Definition valid_positive (v : number) : Prop :=
  isNaN v = false /\ num_lt num0 v = true.

(** NaN, or a number that is zero or below. *)
Definition non_numeric_or_non_positive (v : number) : Prop :=
  isNaN v = true \/ num_le v num0 = true.

(** The page [startPage] opens for a sample of the examples directory. *)
Definition page_of (settings : Settings) (file : string) : PageRequest :=
  {| pr_renderer := renderer settings;
     pr_sampleRate := sampleRate settings;
     pr_resolution := resolution settings;
     pr_path := examplesDirectory ++ file |}.

(** Where the screenshot of a sample goes, and where its stored sum is. *)
Definition screenshot_of (file : string) : string :=
  destinationDirectory ++ "/" ++ file ++ ".png".

Definition md5_of (fileName : string) : string :=
  md5Directory ++ "/" ++ fileName ++ ".md5".

(** The steps of [takeImageStrip] before [process.exit(0)]: server start,
    settings, browser launch, all samples, browser close. *)
Definition full_run (E : Env) : Run unit :=
  startServer ;;
  wait 500 ;;
  settings <- getSettings E ;;
  getBrowser E ;;
  iteratePages E settings ;;
  browser_close E.

(** The state after the samples [files] went through [processPage] without
    a failure, one after the other. *)
Definition after_page (E : Env) (settings : Settings) (st : State)
    (file : string) : State :=
  mkState (<[screenshot_of file := rendering E (page_of settings file)]> (files st))
          (console st ++ map PageLog (page_console E (page_of settings file)))
          (listening st) (browser_open st)
          (pages st ++ [page_of settings file]) (port_taken st).

Definition after_pages (E : Env) (settings : Settings) (st : State)
    (files : list string) : State :=
  fold_left (after_page E settings) files st.

(** The state once the page of a sample is open: its console lines are
    printed and the page is recorded. *)
Definition opened_page (E : Env) (settings : Settings) (st : State)
    (file : string) : State :=
  mkState (files st)
          (console st ++ map PageLog (page_console E (page_of settings file)))
          (listening st) (browser_open st)
          (pages st ++ [page_of settings file]) (port_taken st).

(** The routes [startServer] registers when every manifest file is on
    [disk]. *)
Definition cached_route (disk : gmap string string) (file : FileEntry) : Route :=
  let content := default EmptyString (disk !! filePath file) in
  mkRoute (path file) (type file)
          (match getEncoding (type file) with
           | Some _ => Str content
           | None => Buf content
           end).

Definition cached_routes (disk : gmap string string) : list Route :=
  map (cached_route disk) filesData.

(** A computation that never ends the process. *)
Definition no_exit {A} (m : Run A) : Prop :=
  forall st code, fst (m st) <> Exited code.

(** The exit behaviour in the words of the specification: status 0
    exactly for a full run without failure, and after a failure the error
    is logged and the process ends with a status that is not 0. *)
Definition exit_code_contract (E : Env) (st : State) : Prop :=
  (process_status (takeImageStrip E st) = Terminated 0 <->
   fst (full_run E st) = Returned tt) /\
  (forall error, fst (full_run E st) = Thrown error ->
     last (console (snd (takeImageStrip E st))) = Some (ErrorLog error) /\
     exists code, code <> 0 /\
       process_status (takeImageStrip E st) = Terminated code).

(** The page of a sample opens and finishes within the 20000 ms of the
    wait. *)
Definition sample_completes (E : Env) (settings : Settings) (file : string) : Prop :=
  navigates E (page_of settings file) = true /\
  finished_within E (page_of settings file) 20000 = true.

(** Every file of the manifest is on the disk of [st]. *)
Definition manifest_readable (st : State) : Prop :=
  forall entry, entry ∈ filesData -> is_Some (files st !! filePath entry).

(** The state with the listener bound, the browser launched, the browser
    closed. *)
Definition listening_state (st : State) : State :=
  mkState (files st) (console st) (Some (cached_routes (files st)))
          (browser_open st) (pages st) (port_taken st).

Definition launched_state (st : State) : State :=
  mkState (files st) (console st) (listening st) true (pages st)
          (port_taken st).

Definition closed_state (st : State) : State :=
  mkState (files st) (console st) (listening st) false (pages st)
          (port_taken st).

(** The ways the steps of [takeImageStrip] go in this embedding from
    [st], one per place where it fails, with the outcome and the state
    each of them ends in. *)
Inductive FullRun (E : Env) (st : State) : Outcome unit * State -> Prop :=
| run_manifest_missing entry :
    entry ∈ filesData ->
    files st !! filePath entry = None ->
    FullRun E st (Thrown (ENOENT (filePath entry)), st)
| run_port_taken :
    manifest_readable st ->
    port_taken st = true ->
    FullRun E st (Crashed, st)
| run_bad_arguments :
    manifest_readable st ->
    port_taken st = false ->
    argv E = None ->
    FullRun E st (Thrown ArgumentError, listening_state st)
| run_no_launch settings :
    manifest_readable st ->
    port_taken st = false ->
    (forall s, getSettings E s = (Returned settings, s)) ->
    launches E = false ->
    FullRun E st (Thrown LaunchError, listening_state st)
| run_no_listing settings :
    manifest_readable st ->
    port_taken st = false ->
    (forall s, getSettings E s = (Returned settings, s)) ->
    launches E = true ->
    listing E examplesDirectory = None ->
    FullRun E st (Thrown (ENOENT examplesDirectory),
                  launched_state (listening_state st))
| run_no_navigation settings entries before file after :
    manifest_readable st ->
    port_taken st = false ->
    (forall s, getSettings E s = (Returned settings, s)) ->
    launches E = true ->
    listing E examplesDirectory = Some entries ->
    jsonFilter entries = (before ++ file :: after)%list ->
    (forall g, g ∈ before -> sample_completes E settings g) ->
    navigates E (page_of settings file) = false ->
    FullRun E st (Thrown (NavigationError (examplesDirectory ++ file)),
                  after_pages E settings
                    (launched_state (listening_state st)) before)
| run_timeout settings entries before file after :
    manifest_readable st ->
    port_taken st = false ->
    (forall s, getSettings E s = (Returned settings, s)) ->
    launches E = true ->
    listing E examplesDirectory = Some entries ->
    jsonFilter entries = (before ++ file :: after)%list ->
    (forall g, g ∈ before -> sample_completes E settings g) ->
    navigates E (page_of settings file) = true ->
    finished_within E (page_of settings file) 20000 = false ->
    FullRun E st (Thrown (TimeoutError 20000),
                  opened_page E settings
                    (after_pages E settings
                       (launched_state (listening_state st)) before)
                    file)
| run_no_close settings entries :
    manifest_readable st ->
    port_taken st = false ->
    (forall s, getSettings E s = (Returned settings, s)) ->
    launches E = true ->
    listing E examplesDirectory = Some entries ->
    (forall g, g ∈ jsonFilter entries -> sample_completes E settings g) ->
    closes E = false ->
    FullRun E st (Thrown CloseError,
                  after_pages E settings
                    (launched_state (listening_state st))
                    (jsonFilter entries))
| run_complete settings entries :
    manifest_readable st ->
    port_taken st = false ->
    (forall s, getSettings E s = (Returned settings, s)) ->
    launches E = true ->
    listing E examplesDirectory = Some entries ->
    (forall g, g ∈ jsonFilter entries -> sample_completes E settings g) ->
    closes E = true ->
    FullRun E st (Returned tt,
                  closed_state
                    (after_pages E settings
                       (launched_state (listening_state st))
                       (jsonFilter entries))).

(** ** Strings *)

Lemma append_nil (b : string) : EmptyString ++ b = b.
Proof. reflexivity. Qed.

Lemma append_cons (c : ascii) (a b : string) :
  String c a ++ b = String c (a ++ b).
Proof. reflexivity. Qed.

Ltac unfold_append :=
  repeat first
    [ rewrite append_cons in * | rewrite append_nil in * ].

Lemma startsWith_spec s pat :
  startsWith s pat = true <-> exists after, s = pat ++ after.
Proof.
  revert s. induction pat as [|c pat IH]; intros s; simpl.
  - split; [intros _; by exists s | done].
  - destruct s as [|d s]; simpl.
    + split; [done | intros [after H]; discriminate].
    + destruct (Ascii.eqb_spec c d) as [->|Hne].
      * rewrite IH. split; intros [after H]; exists after;
          unfold_append; congruence.
      * split; [done | intros [after H]; unfold_append; congruence].
Qed.

Lemma contains_here s pat : startsWith s pat = true -> contains s pat.
Proof.
  intros [after ->]%startsWith_spec. by exists EmptyString, after.
Qed.

Lemma contains_later c s pat :
  startsWith (String c s) pat = false ->
  contains (String c s) pat <-> contains s pat.
Proof.
  intros Hno. split.
  - intros [[|d before] [after H]]; unfold_append.
    + assert (startsWith (String c s) pat = true) as Hyes
        by (apply startsWith_spec; eauto).
      congruence.
    + exists before, after. congruence.
  - intros [before [after ->]]. by exists (String c before), after.
Qed.

Lemma indexOf_from_spec i s pat :
  0 <= i -> indexOf_from i s pat <> -1 <-> contains s pat.
Proof.
  revert i. induction s as [|c s IH]; intros i Hi; simpl.
  - destruct (startsWith EmptyString pat) eqn:Hsw.
    + split; [intros _; by apply contains_here | lia].
    + split; [done | intros [[|d before] [after H]]; unfold_append; [|done]].
      assert (startsWith EmptyString pat = true) as Hyes
        by (apply startsWith_spec; eauto).
      congruence.
  - destruct (startsWith (String c s) pat) eqn:Hsw.
    + split; [intros _; by apply contains_here | lia].
    + rewrite contains_later by done. apply IH. lia.
Qed.

(** [s.indexOf(pat) !== -1] says that [pat] occurs in [s]. *)
Lemma indexOf_contains s pat : indexOf s pat <> -1 <-> contains s pat.
Proof. unfold indexOf. apply indexOf_from_spec. lia. Qed.

Lemma append_length (a b : string) :
  String.length (a ++ b) = (String.length a + String.length b)%nat.
Proof. induction a as [|x a IH]; unfold_append; simpl; congruence. Qed.

Lemma append_cancel_r (a b c : string) : a ++ c = b ++ c -> a = b.
Proof.
  revert b. induction a as [|x a IH]; intros [|y b] H; unfold_append.
  - done.
  - apply (f_equal String.length) in H. simpl in H.
    rewrite append_length in H. lia.
  - apply (f_equal String.length) in H. simpl in H.
    rewrite append_length in H. lia.
  - injection H as -> H. f_equal. by apply IH.
Qed.

Lemma screenshot_of_inj f g : screenshot_of f = screenshot_of g -> f = g.
Proof.
  unfold screenshot_of. intros H.
  apply (inj (String.append _)) in H. apply (inj (String.append _)) in H.
  by apply append_cancel_r in H.
Qed.

Lemma contains_or_not s pat : contains s pat \/ ~ contains s pat.
Proof.
  rewrite <- indexOf_contains.
  destruct (decide (indexOf s pat <> -1)); [by left | by right].
Qed.

(** ** Numbers *)

Lemma num_lt_zero_not_le v : num_lt num0 v = true -> num_le v num0 = false.
Proof. destruct v as [s|s| |s m e]; try destruct s; simpl; done. Qed.

Lemma num_not_le_zero_lt v :
  isNaN v = false -> num_le v num0 = false -> num_lt num0 v = true.
Proof. destruct v as [s|s| |s m e]; try destruct s; simpl; done. Qed.

(** Every number is of exactly one of the two kinds. *)
Lemma number_kinds v :
  (valid_positive v \/ non_numeric_or_non_positive v) /\
  ~ (valid_positive v /\ non_numeric_or_non_positive v).
Proof.
  unfold valid_positive, non_numeric_or_non_positive. split.
  - destruct (isNaN v) eqn:Hnan; [by right; left|].
    destruct (num_le v num0) eqn:Hle; [by right; right|].
    left. split; [done|]. by apply num_not_le_zero_lt.
  - intros [[Hnan Hlt] [Hnan'|Hle]]; [congruence|].
    apply num_lt_zero_not_le in Hlt. congruence.
Qed.

(** ** getSettings *)

Lemma resolution_type_valid E val :
  valid_positive (Number E val) -> resolution_type E val = Number E val.
Proof.
  intros [Hnan Hlt]. unfold resolution_type. cbv zeta.
  by rewrite Hnan, (num_lt_zero_not_le _ Hlt).
Qed.

Lemma resolution_type_invalid E val :
  non_numeric_or_non_positive (Number E val) -> resolution_type E val = num1.
Proof.
  intros [Hnan|Hle]; unfold resolution_type; cbv zeta.
  - by rewrite Hnan.
  - rewrite Hle. by rewrite orb_true_r.
Qed.

Lemma sampleRate_type_eq E val : sampleRate_type E val = resolution_type E val.
Proof. reflexivity. Qed.

Lemma renderer_type_known value :
  In value ["svg"; "canvas"; "skottie"] -> renderer_type value = value.
Proof.
  intros Hin. unfold renderer_type, includes.
  replace (existsb _ _) with true; [done|].
  symmetry. apply existsb_exists. exists value. split; [done|].
  apply String.eqb_refl.
Qed.

Lemma renderer_type_unknown value :
  ~ In value ["svg"; "canvas"; "skottie"] -> renderer_type value = "svg".
Proof.
  intros Hout. unfold renderer_type, includes.
  destruct (existsb _ _) eqn:Hex; [|done].
  apply existsb_exists in Hex as [known [Hin Heq]].
  apply String.eqb_eq in Heq. subst known. done.
Qed.

(** With arguments that command-line-args accepts, [getSettings] returns
    the defaults overridden by the properties built for the options that
    appear, and leaves the state alone. *)
Lemma getSettings_returns E cl st :
  argv E = Some cl ->
  getSettings E st =
    (Returned
       {| renderer :=
            default (Some "svg") (parse_argument renderer_type (cl_renderer cl));
          resolution :=
            default (Some num1)
                    (parse_argument (resolution_type E) (cl_resolution cl));
          sampleRate :=
            default (Some num1)
                    (parse_argument (sampleRate_type E) (cl_sampleRate cl)) |},
     st).
Proof.
  intros Hargv. unfold getSettings, commandLineArgs, bind. by rewrite Hargv.
Qed.

(** C3. Where the code departs from the claim: when [--resolution] or
    [--sampleRate] stands on the command line without a value, the [type]
    function is not called, the [null] of command-line-args overrides the
    default in the spread, and the setting is [null], not 1. *)
Theorem getSettings_number_option_without_value
    (E : Env) (cl : CommandLine) (st : State) :
  argv E = Some cl ->
  exists settings,
    getSettings E st = (Returned settings, st) /\
    (cl_resolution cl = NoValue ->
       resolution settings = None /\ resolution settings <> Some num1) /\
    (cl_sampleRate cl = NoValue ->
       sampleRate settings = None /\ sampleRate settings <> Some num1).
Proof.
  intros Hargv. eexists. split; [by apply getSettings_returns|].
  split; intros ->; by split.
Qed.

(** C4. Where the code departs from the claim: when [--renderer] stands
    on the command line without a value, the [type] function is not
    called, the [null] of command-line-args overrides the default in the
    spread, and the renderer of the settings is [null], not [svg]. *)
Theorem getSettings_renderer_without_value
    (E : Env) (cl : CommandLine) (st : State) :
  argv E = Some cl ->
  cl_renderer cl = NoValue ->
  exists settings,
    getSettings E st = (Returned settings, st) /\
    renderer settings = None /\
    renderer settings <> Some "svg".
Proof.
  intros Hargv Hbare. eexists. split; [by apply getSettings_returns|].
  rewrite Hbare. by split.
Qed.

(** ** The server *)

Lemma readFile_found path encoding st content :
  files st !! path = Some content ->
  readFile path encoding st =
    (Returned (match encoding with
               | Some _ => Str content
               | None => Buf content
               end), st).
Proof. intros Hfile. unfold readFile. by rewrite Hfile. Qed.

Lemma readFile_missing path encoding st :
  files st !! path = None ->
  readFile path encoding st = (Thrown (ENOENT path), st).
Proof. intros Hfile. unfold readFile. by rewrite Hfile. Qed.

Lemma proxyRoute_missing req st :
  files st !! (".." ++ originalUrl req) = None ->
  proxyRoute req st = (Returned (res_send EmptyString), st).
Proof.
  intros Hfile. unfold proxyRoute, try_catch, bind.
  destruct (decide _); by rewrite readFile_missing.
Qed.

Lemma proxyRoute_text req st content :
  files st !! (".." ++ originalUrl req) = Some content ->
  contains (originalUrl req) ".json" ->
  proxyRoute req st = (Returned (res_send content), st).
Proof.
  intros Hfile Hjson%indexOf_contains. unfold proxyRoute, try_catch, bind.
  rewrite decide_True by done. by rewrite (readFile_found _ _ _ content).
Qed.

Lemma proxyRoute_binary req st content :
  files st !! (".." ++ originalUrl req) = Some content ->
  ~ contains (originalUrl req) ".json" ->
  proxyRoute req st =
    (Returned (res_writeHead_end 200 {[ "Content-Type" := "image/jpeg" ]}
                                 (Buf content)), st).
Proof.
  intros Hfile Hjson. rewrite <- indexOf_contains in Hjson.
  unfold proxyRoute, try_catch, bind.
  rewrite decide_False by done. by rewrite (readFile_found _ _ _ content).
Qed.

Lemma respond_proxy E routes req st :
  find (fun route => route_match E (route_path route) (originalUrl req)) routes
    = None ->
  route_match E "/*" (originalUrl req) = true ->
  respond E routes req st = proxyRoute req st.
Proof. intros Hnone Hstar. unfold respond. by rewrite Hnone, Hstar. Qed.

(** C6. A request handled by the catch-all route whose file cannot be read
    is answered with status 200 and the empty body, not with 404 or 500. *)
Theorem proxyRoute_unreadable_is_empty_200 (req : Request) (st : State) :
  files st !! (".." ++ originalUrl req) = None ->
  exists response,
    proxyRoute req st = (Returned response, st) /\
    status response = 200 /\
    body response = Str EmptyString /\
    status response <> 404 /\
    status response <> 500.
Proof.
  intros Hfile. exists (res_send EmptyString). split; [by apply proxyRoute_missing|].
  simpl. repeat split; lia.
Qed.

(** C7. A request handled by the catch-all route reads the file named by
    [..] followed by the URL: when the URL contains [.json] the content is
    read with the utf8 encoding and sent as text, otherwise it is read as a
    buffer and sent with status 200 and content type [image/jpeg]. *)
Theorem proxyRoute_text_or_image (req : Request) (st : State) (content : string) :
  files st !! (".." ++ originalUrl req) = Some content ->
  exists response,
    proxyRoute req st = (Returned response, st) /\
    status response = 200 /\
    (contains (originalUrl req) ".json" ->
       response = res_send content /\ body response = Str content) /\
    (~ contains (originalUrl req) ".json" ->
       headers response !! "Content-Type" = Some "image/jpeg" /\
       body response = Buf content).
Proof.
  intros Hfile.
  destruct (contains_or_not (originalUrl req) ".json") as [Hjson|Hjson].
  -     exists (res_send content). split; [by apply proxyRoute_text|].
    repeat split; done.
  - eexists. split; [by apply proxyRoute_binary|].
    repeat split; done.
Qed.

(** C9. A request that matches no manifest route reaches the catch-all
    handler, which reads the file at the plain concatenation of [..] and
    the URL as received: whatever the URL, a readable file at that path is
    served with its content, as text exactly when [.json] occurs somewhere
    in the URL and as a buffer otherwise. *)
Theorem respond_serves_any_readable_path
    (E : Env) (routes : list Route) (req : Request) (st : State)
    (content : string) :
  find (fun route => route_match E (route_path route) (originalUrl req)) routes
    = None ->
  route_match E "/*" (originalUrl req) = true ->
  files st !! (".." ++ originalUrl req) = Some content ->
  exists response,
    respond E routes req st = (Returned response, st) /\
    status response = 200 /\
    toString (body response) = content /\
    (body response = Str content <-> contains (originalUrl req) ".json") /\
    (body response = Buf content <-> ~ contains (originalUrl req) ".json").
Proof.
  intros Hnone Hstar Hfile. rewrite respond_proxy by done.
  destruct (contains_or_not (originalUrl req) ".json") as [Hjson|Hjson].
  -     exists (res_send content). split; [by apply proxyRoute_text|].
    simpl. repeat split; done.
  - eexists. split; [by apply proxyRoute_binary|].
    simpl. repeat split; done.
Qed.

(** ** Check sums *)

Lemma getFileAsString_returns path st :
  getFileAsString path st = (Returned (default EmptyString (files st !! path)), st).
Proof.
  unfold getFileAsString, try_catch, bind, readFile.
  by destruct (files st !! path).
Qed.

Lemma checkMD5Sum_branch_new E fileName filePath st :
  default EmptyString (files st !! md5_of fileName) = EmptyString ->
  checkMD5Sum_branch E fileName filePath st = (Returned NewFile, st).
Proof.
  intros Hstored. unfold checkMD5Sum_branch, bind. cbv zeta.
  fold (md5_of fileName). rewrite getFileAsString_returns, Hstored. done.
Qed.

Lemma checkMD5Sum_branch_stored E fileName filePath st stored content :
  files st !! md5_of fileName = Some stored ->
  stored <> EmptyString ->
  files st !! filePath = Some content ->
  checkMD5Sum_branch E fileName filePath st =
    (Returned (if String.eqb (md5 E content) stored then Unchanged else Changed),
     st).
Proof.
  intros Hstored Hne Hfile. unfold checkMD5Sum_branch, bind. cbv zeta.
  fold (md5_of fileName). rewrite getFileAsString_returns, Hstored. simpl.
  destruct stored as [|c stored]; [done|]. simpl.
  unfold md5File. rewrite Hfile. by destruct (String.eqb _ _).
Qed.

Lemma checkMD5Sum_of_branch E fileName filePath st branch :
  checkMD5Sum_branch E fileName filePath st = (Returned branch, st) ->
  checkMD5Sum E fileName filePath st = (Returned tt, st).
Proof. intros Hbranch. unfold checkMD5Sum, bind. by rewrite Hbranch. Qed.

(** With the screenshot on disk, [checkMD5Sum] returns and changes
    nothing. *)
Lemma checkMD5Sum_returns E fileName filePath st content :
  files st !! filePath = Some content ->
  checkMD5Sum E fileName filePath st = (Returned tt, st).
Proof.
  intros Hfile.
  destruct (files st !! md5_of fileName) as [stored|] eqn:Hstored.
  - destruct (decide (stored = EmptyString)) as [->|Hne].
    + eapply checkMD5Sum_of_branch, checkMD5Sum_branch_new. by rewrite Hstored.
    + eapply checkMD5Sum_of_branch. by eapply checkMD5Sum_branch_stored.
  - eapply checkMD5Sum_of_branch, checkMD5Sum_branch_new. by rewrite Hstored.
Qed.

Lemma checkMD5Sum_state E fileName filePath st :
  snd (checkMD5Sum E fileName filePath st) = st.
Proof.
  unfold checkMD5Sum, checkMD5Sum_branch, bind. cbv zeta.
  rewrite getFileAsString_returns.
  destruct (negb _); [done|].
  unfold md5File. destruct (files st !! filePath); [|done].
  by destruct (negb _).
Qed.

(** C8. [checkMD5Sum] never changes the state, files included. With the
    captured screenshot on disk it returns normally on each of its three
    ways: no stored sum, a stored sum equal to the fresh one, a stored sum
    different from it. *)
Theorem checkMD5Sum_no_effect (E : Env) (fileName filePath : string) (st : State) :
  snd (checkMD5Sum E fileName filePath st) = st /\
  (forall content, files st !! filePath = Some content ->
     checkMD5Sum E fileName filePath st = (Returned tt, st) /\
     (default EmptyString (files st !! md5_of fileName) = EmptyString ->
        checkMD5Sum_branch E fileName filePath st = (Returned NewFile, st)) /\
     (forall stored, files st !! md5_of fileName = Some stored ->
        stored <> EmptyString -> md5 E content = stored ->
        checkMD5Sum_branch E fileName filePath st = (Returned Unchanged, st)) /\
     (forall stored, files st !! md5_of fileName = Some stored ->
        stored <> EmptyString -> md5 E content <> stored ->
        checkMD5Sum_branch E fileName filePath st = (Returned Changed, st))).
Proof.
  split; [apply checkMD5Sum_state|].
  intros content Hfile. split; [by eapply checkMD5Sum_returns|].
  split; [by apply checkMD5Sum_branch_new|].
  split; intros stored Hstored Hne Hsum;
    rewrite (checkMD5Sum_branch_stored E _ _ _ stored content) by done.
  - by rewrite (proj2 (String.eqb_eq _ _) Hsum).
  - by rewrite (proj2 (String.eqb_neq _ _) Hsum).
Qed.

(** C10. [getFileAsString] returns on every path and state, with the
    empty string when the file cannot be read; so with no readable stored
    sum [checkMD5Sum] takes the new-file way and returns without throwing,
    whether or not the screenshot itself can be read. *)
Theorem checkMD5Sum_missing_sum_is_new_file
    (E : Env) (fileName filePath : string) (st : State) :
  (forall path, exists text,
     getFileAsString path st = (Returned text, st) /\
     (files st !! path = None -> text = EmptyString)) /\
  (files st !! md5_of fileName = None ->
     getFileAsString (md5_of fileName) st = (Returned EmptyString, st) /\
     checkMD5Sum_branch E fileName filePath st = (Returned NewFile, st) /\
     checkMD5Sum E fileName filePath st = (Returned tt, st)).
Proof.
  split.
  - intros path. eexists. split; [apply getFileAsString_returns|].
    by intros ->.
  - intros Hmissing.
    assert (checkMD5Sum_branch E fileName filePath st = (Returned NewFile, st))
      as Hbranch by (apply checkMD5Sum_branch_new; by rewrite Hmissing).
    split; [by rewrite getFileAsString_returns, Hmissing|].
    split; [done|]. by eapply checkMD5Sum_of_branch.
Qed.

(** ** One sample *)

Lemma processPage_returns E settings file st :
  navigates E (page_of settings file) = true ->
  finished_within E (page_of settings file) 20000 = true ->
  processPage E settings examplesDirectory file st =
    (Returned tt, after_page E settings st file).
Proof.
  intros Hnav Hfin. unfold page_of in Hnav, Hfin.
  unfold processPage, bind, startPage. cbv zeta. rewrite Hnav.
  unfold createFilmStrip, bind, page_waitForFunction. rewrite Hfin.
  unfold page_screenshot.
  erewrite checkMD5Sum_returns; [done|]. simpl. apply lookup_insert_eq.
Qed.

Lemma processPage_timeout E settings file st :
  navigates E (page_of settings file) = true ->
  finished_within E (page_of settings file) 20000 = false ->
  processPage E settings examplesDirectory file st =
    (Thrown (TimeoutError 20000), opened_page E settings st file).
Proof.
  intros Hnav Hfin. unfold page_of in Hnav, Hfin.
  unfold processPage, bind, startPage. cbv zeta. rewrite Hnav.
  unfold createFilmStrip, bind, page_waitForFunction. by rewrite Hfin.
Qed.

(** The wait of [createFilmStrip] alone: on a timeout it throws and the
    screenshot is not taken. *)
Lemma createFilmStrip_timeout E page path st :
  finished_within E page 20000 = false ->
  createFilmStrip E page path st = (Thrown (TimeoutError 20000), st).
Proof.
  intros Hfin. unfold createFilmStrip, bind, page_waitForFunction.
  by rewrite Hfin.
Qed.

(** ** The loop over the samples *)

Lemma forEach_app {A} (xs ys : list A) body st :
  forEach (xs ++ ys) body st =
    match forEach xs body st with
    | (Returned _, st') => forEach ys body st'
    | r => r
    end.
Proof.
  revert st. induction xs as [|x xs IH]; intros st; simpl.
  - done.
  - unfold bind. destruct (body x st) as [[[]|error|code|] st']; [apply IH|done..].
Qed.

Lemma forEach_returns E settings files st :
  (forall file, file ∈ files ->
     navigates E (page_of settings file) = true /\
     finished_within E (page_of settings file) 20000 = true) ->
  forEach files (fun file => processPage E settings examplesDirectory file) st =
    (Returned tt, after_pages E settings st files).
Proof.
  revert st. induction files as [|file files IH]; intros st Hall; simpl.
  - done.
  - destruct (Hall file) as [Hnav Hfin]; [left|].
    unfold bind. rewrite processPage_returns by done.
    apply IH. intros g Hg. apply Hall. by right.
Qed.

Lemma forEach_stops E settings before file after st :
  (forall g, g ∈ before ->
     navigates E (page_of settings g) = true /\
     finished_within E (page_of settings g) 20000 = true) ->
  navigates E (page_of settings file) = true ->
  finished_within E (page_of settings file) 20000 = false ->
  forEach (before ++ file :: after)
          (fun file => processPage E settings examplesDirectory file) st =
    (Thrown (TimeoutError 20000),
     opened_page E settings (after_pages E settings st before) file).
Proof.
  intros Hbefore Hnav Hfin.
  rewrite forEach_app, forEach_returns by done. simpl.
  unfold bind. by rewrite processPage_timeout.
Qed.

Lemma after_pages_cons E settings st file files :
  after_pages E settings st (file :: files) =
    after_pages E settings (after_page E settings st file) files.
Proof. reflexivity. Qed.

Lemma after_pages_pages E settings st files :
  pages (after_pages E settings st files) =
    (pages st ++ map (page_of settings) files)%list.
Proof.
  revert st. induction files as [|file files IH]; intros st.
  - simpl. by rewrite app_nil_r.
  - rewrite after_pages_cons, IH. simpl. by rewrite <- app_assoc.
Qed.

Lemma after_pages_listening E settings st files :
  listening (after_pages E settings st files) = listening st.
Proof.
  revert st. induction files as [|file files IH]; intros st; [done|].
  by rewrite after_pages_cons, IH.
Qed.

(** Only the screenshots of the processed samples are written. *)
Lemma after_pages_files_other E settings st (files' : list string) path :
  (forall file, file ∈ files' -> screenshot_of file <> path) ->
  files (after_pages E settings st files') !! path = files st !! path.
Proof.
  revert st. induction files' as [|file files' IH]; intros st Hother; [done|].
  rewrite after_pages_cons, IH by (intros g Hg; apply Hother; by right).
  simpl. apply lookup_insert_ne. apply Hother. by left.
Qed.

Lemma after_pages_files_written E settings st (files' : list string) file :
  file ∈ files' ->
  files (after_pages E settings st files') !! screenshot_of file =
    Some (rendering E (page_of settings file)).
Proof.
  revert st. induction files' as [|g files' IH]; intros st Hin.
  - by apply not_elem_of_nil in Hin.
  - rewrite after_pages_cons.
    destruct (decide (file ∈ files')) as [Hlater|Hnot]; [by apply IH|].
    apply elem_of_cons in Hin as [->|Hin]; [|done].
    rewrite after_pages_files_other.
    + simpl. apply lookup_insert_eq.
    + intros h Hh Heq. apply screenshot_of_inj in Heq. by subst h.
Qed.

Lemma iteratePages_listed E settings st files :
  listing E examplesDirectory = Some files ->
  iteratePages E settings st =
    forEach (jsonFilter files)
            (fun file => processPage E settings examplesDirectory file) st.
Proof. intros Hlist. unfold iteratePages, getDirFiles, bind. by rewrite Hlist. Qed.

(** ** Starting the server *)

Lemma mapAll_readFile_returns (entries : list FileEntry) st :
  (forall entry, entry ∈ entries -> is_Some (files st !! filePath entry)) ->
  mapAll entries (fun file =>
      fileData <- readFile (filePath file) (getEncoding (type file)) ;;
      ret (mkRoute (path file) (type file) fileData)) st =
    (Returned (map (cached_route (files st)) entries), st).
Proof.
  induction entries as [|entry entries IH]; intros Hall; simpl; [done|].
  destruct (Hall entry) as [content Hcontent]; [left|].
  unfold bind at 1 2. rewrite (readFile_found _ _ _ content) by done.
  unfold ret at 1. unfold bind at 1.
  rewrite IH by (intros g Hg; apply Hall; by right).
  unfold ret, cached_route. by rewrite Hcontent.
Qed.

Lemma startServer_returns st :
  (forall entry, entry ∈ filesData -> is_Some (files st !! filePath entry)) ->
  port_taken st = false ->
  startServer st =
    (Returned tt,
     mkState (files st) (console st) (Some (cached_routes (files st)))
             (browser_open st) (pages st) (port_taken st)).
Proof.
  intros Hall Hport. unfold startServer, bind.
  rewrite mapAll_readFile_returns by done.
  unfold app_listen. by rewrite Hport.
Qed.

(** Reading the manifest either finds every file or stops at a missing
    one; the state is the same in both cases. *)
Lemma mapAll_readFile_outcome (entries : list FileEntry) st :
  (forall entry, entry ∈ entries -> is_Some (files st !! filePath entry)) \/
  (exists entry,
     entry ∈ entries /\ files st !! filePath entry = None /\
     mapAll entries (fun file =>
         fileData <- readFile (filePath file) (getEncoding (type file)) ;;
         ret (mkRoute (path file) (type file) fileData)) st =
       (Thrown (ENOENT (filePath entry)), st)).
Proof.
  induction entries as [|entry entries IH].
  - left. intros entry Hin. by apply not_elem_of_nil in Hin.
  - destruct (files st !! filePath entry) as [content|] eqn:Hentry.
    + destruct IH as [Hall|(missing & Hin & Hmissing & Hrun)].
      * left. intros other [->|Hother]%elem_of_cons; [by eexists | by apply Hall].
      * right. exists missing. split; [by right|]. split; [done|].
        simpl. unfold bind at 1 2.
        rewrite (readFile_found _ _ _ content) by done.
        unfold ret at 1. unfold bind at 1. by rewrite Hrun.
    + right. exists entry. split; [by left|]. split; [done|].
      simpl. unfold bind at 1 2. by rewrite readFile_missing.
Qed.

(** [startServer] binds the listener, or dies on the port, or throws on
    a missing manifest file. *)
Lemma startServer_outcome st :
  (manifest_readable st /\ port_taken st = false /\
   startServer st = (Returned tt, listening_state st)) \/
  (manifest_readable st /\ port_taken st = true /\
   startServer st = (Crashed, st)) \/
  (exists entry,
     entry ∈ filesData /\ files st !! filePath entry = None /\
     startServer st = (Thrown (ENOENT (filePath entry)), st)).
Proof.
  destruct (mapAll_readFile_outcome filesData st)
    as [Hall|(missing & Hin & Hmissing & Hrun)].
  - destruct (port_taken st) eqn:Hport.
    + right. left. split; [done|]. split; [done|].
      unfold startServer, bind. rewrite mapAll_readFile_returns by done.
      unfold app_listen. by rewrite Hport.
    + left. split; [done|]. split; [done|].
      rewrite startServer_returns by done. unfold listening_state.
      by rewrite Hport.
  - right. right. exists missing. split; [done|]. split; [done|].
    unfold startServer. unfold bind at 1. by rewrite Hrun.
Qed.

(** ** Computations that never end the process *)

Create HintDb no_exit.

Lemma no_exit_ret {A} (a : A) : no_exit (ret a).
Proof. by intros st code. Qed.

Lemma no_exit_throw {A} error : no_exit (@throw A error).
Proof. by intros st code. Qed.

Lemma no_exit_bind {A B} (m : Run A) (k : A -> Run B) :
  no_exit m -> (forall a, no_exit (k a)) -> no_exit (bind m k).
Proof.
  intros Hm Hk st code. unfold bind.
  specialize (Hm st). destruct (m st) as [[a|error|code'|] st']; simpl in *.
  - apply Hk.
  - done.
  - by destruct (Hm code').
  - done.
Qed.

Lemma no_exit_try_catch {A} (body : Run A) handler :
  no_exit body -> (forall error, no_exit (handler error)) ->
  no_exit (try_catch body handler).
Proof.
  intros Hbody Hhandler st code. unfold try_catch.
  specialize (Hbody st). destruct (body st) as [[a|error|code'|] st']; simpl in *.
  - done.
  - apply Hhandler.
  - by destruct (Hbody code').
  - done.
Qed.

Lemma no_exit_forEach {A} (xs : list A) body :
  (forall x, no_exit (body x)) -> no_exit (forEach xs body).
Proof.
  intros Hbody. induction xs as [|x xs IH]; simpl.
  - apply no_exit_ret.
  - by apply no_exit_bind.
Qed.

Lemma no_exit_mapAll {A B} (xs : list A) (body : A -> Run B) :
  (forall x, no_exit (body x)) -> no_exit (mapAll xs body).
Proof.
  intros Hbody. induction xs as [|x xs IH]; simpl.
  - apply no_exit_ret.
  - apply no_exit_bind; [done|]. intros y.
    apply no_exit_bind; [done|]. intros ys. apply no_exit_ret.
Qed.

#[local] Hint Resolve no_exit_ret no_exit_throw no_exit_bind
  no_exit_try_catch no_exit_forEach no_exit_mapAll : no_exit.

(** A step that asks the environment or the disk once and then returns
    or throws. *)
Ltac no_exit_step :=
  intros ? ?;
  repeat match goal with
         | |- context [match ?x with _ => _ end] => destruct x
         end;
  done.

Lemma no_exit_readFile path encoding : no_exit (readFile path encoding).
Proof. unfold readFile. no_exit_step. Qed.

Lemma no_exit_app_listen routes : no_exit (app_listen routes).
Proof. unfold app_listen. no_exit_step. Qed.

Lemma no_exit_commandLineArgs E : no_exit (commandLineArgs E).
Proof. unfold commandLineArgs. destruct (argv E); auto with no_exit. Qed.

Lemma no_exit_getBrowser E : no_exit (getBrowser E).
Proof. unfold getBrowser. no_exit_step. Qed.

Lemma no_exit_browser_close E : no_exit (browser_close E).
Proof. unfold browser_close. no_exit_step. Qed.

Lemma no_exit_startPage E settings path : no_exit (startPage E settings path).
Proof. unfold startPage. no_exit_step. Qed.

Lemma no_exit_page_waitForFunction E page timeout :
  no_exit (page_waitForFunction E page timeout).
Proof. unfold page_waitForFunction. no_exit_step. Qed.

Lemma no_exit_page_screenshot E page path : no_exit (page_screenshot E page path).
Proof. unfold page_screenshot. no_exit_step. Qed.

Lemma no_exit_getDirFiles E directory : no_exit (getDirFiles E directory).
Proof. unfold getDirFiles. destruct (listing E _); auto with no_exit. Qed.

Lemma no_exit_md5File E filePath : no_exit (md5File E filePath).
Proof. unfold md5File. no_exit_step. Qed.

#[local] Hint Resolve no_exit_readFile no_exit_app_listen
  no_exit_commandLineArgs no_exit_getBrowser no_exit_browser_close
  no_exit_startPage no_exit_page_waitForFunction no_exit_page_screenshot
  no_exit_getDirFiles no_exit_md5File : no_exit.

Lemma no_exit_startServer : no_exit startServer.
Proof. unfold startServer. auto 6 with no_exit. Qed.

Lemma no_exit_getSettings E : no_exit (getSettings E).
Proof. unfold getSettings. auto with no_exit. Qed.

Lemma no_exit_getFileAsString path : no_exit (getFileAsString path).
Proof. unfold getFileAsString. auto 6 with no_exit. Qed.

#[local] Hint Resolve no_exit_getFileAsString : no_exit.

Lemma no_exit_checkMD5Sum E fileName filePath :
  no_exit (checkMD5Sum E fileName filePath).
Proof.
  unfold checkMD5Sum, checkMD5Sum_branch.
  apply no_exit_bind; [|auto with no_exit].
  apply no_exit_bind; [auto with no_exit|]. intros stored.
  destruct (negb (truthy stored)); [auto with no_exit|].
  apply no_exit_bind; [auto with no_exit|]. intros fresh.
  destruct (negb _); auto with no_exit.
Qed.

Lemma no_exit_processPage E settings directory file :
  no_exit (processPage E settings directory file).
Proof.
  pose proof (no_exit_checkMD5Sum E).
  unfold processPage, createFilmStrip. auto 8 with no_exit.
Qed.

Lemma no_exit_iteratePages E settings : no_exit (iteratePages E settings).
Proof.
  pose proof (no_exit_processPage E settings).
  unfold iteratePages. auto 6 with no_exit.
Qed.

Lemma no_exit_full_run E : no_exit (full_run E).
Proof.
  pose proof no_exit_startServer. pose proof (no_exit_getSettings E).
  pose proof (no_exit_iteratePages E).
  unfold full_run, wait. auto 12 with no_exit.
Qed.

(** ** takeImageStrip *)

(** [takeImageStrip] is the full run followed by [process.exit(0)], with
    a thrown error logged instead. *)
Lemma takeImageStrip_full_run E st :
  takeImageStrip E st =
    match full_run E st with
    | (Returned _, st') => (Exited 0, st')
    | (Thrown error, st') => console_log (ErrorLog error) st'
    | (Exited code, st') => (Exited code, st')
    | (Crashed, st') => (Crashed, st')
    end.
Proof.
  unfold takeImageStrip, full_run, try_catch, bind, process_exit, wait, ret.
  destruct (startServer st) as [[[]|e|c|] st1]; [|done..].
  destruct (getSettings E st1) as [[settings|e|c|] st2]; [|done..].
  destruct (getBrowser E st2) as [[[]|e|c|] st3]; [|done..].
  destruct (iteratePages E settings st3) as [[[]|e|c|] st4]; [|done..].
  by destruct (browser_close E st4) as [[[]|e|c|] st5].
Qed.

(** The full run up to a sample whose page never finishes. *)
Lemma full_run_timeout E disk settings entries before file after :
  (forall entry, entry ∈ filesData -> is_Some (disk !! filePath entry)) ->
  (forall st, getSettings E st = (Returned settings, st)) ->
  launches E = true ->
  listing E examplesDirectory = Some entries ->
  jsonFilter entries = (before ++ file :: after)%list ->
  (forall g, g ∈ before ->
     navigates E (page_of settings g) = true /\
     finished_within E (page_of settings g) 20000 = true) ->
  navigates E (page_of settings file) = true ->
  finished_within E (page_of settings file) 20000 = false ->
  full_run E (boot disk) =
    (Thrown (TimeoutError 20000),
     opened_page E settings
       (after_pages E settings
          (mkState disk [] (Some (cached_routes disk)) true [] false) before)
       file).
Proof.
  intros Hdisk Hsettings Hlaunch Hlist Hjson Hbefore Hnav Hfin.
  unfold full_run, bind. rewrite startServer_returns by done.
  unfold wait, ret. rewrite Hsettings.
  unfold getBrowser. rewrite Hlaunch.
  rewrite (iteratePages_listed _ _ _ entries), Hjson by done.
  by rewrite forEach_stops.
Qed.

(** C1. When the page of a sample does not set [window._finished] within
    the 20000 ms of the wait, [createFilmStrip] throws before the
    screenshot; in a run that reaches this sample the error is logged by
    [takeImageStrip], which returns without [process.exit]; the
    screenshot of the sample is not written, the page was opened once, and
    no page is opened for the samples after it. *)
Theorem timeout_aborts_run
    (E : Env) (disk : gmap string string) (settings : Settings)
    (entries : list string) (before : list string) (file : string)
    (after : list string) :
  (forall entry, entry ∈ filesData -> is_Some (disk !! filePath entry)) ->
  (forall st, getSettings E st = (Returned settings, st)) ->
  launches E = true ->
  listing E examplesDirectory = Some entries ->
  jsonFilter entries = (before ++ file :: after)%list ->
  (forall g, g ∈ before ->
     navigates E (page_of settings g) = true /\
     finished_within E (page_of settings g) 20000 = true) ->
  navigates E (page_of settings file) = true ->
  finished_within E (page_of settings file) 20000 = false ->
  (forall st,
     createFilmStrip E (page_of settings file) (screenshot_of file) st =
       (Thrown (TimeoutError 20000), st)) /\
  exists st',
    takeImageStrip E (boot disk) = (Returned tt, st') /\
    last (console st') = Some (ErrorLog (TimeoutError 20000)) /\
    files st' !! screenshot_of file = disk !! screenshot_of file /\
    pages st' = map (page_of settings) (before ++ [file]).
Proof.
  intros Hdisk Hsettings Hlaunch Hlist Hjson Hbefore Hnav Hfin.
  split; [intros st; by apply createFilmStrip_timeout|].
  eexists. split.
  { rewrite takeImageStrip_full_run.
    erewrite full_run_timeout by done. reflexivity. }
  simpl. split; [apply last_snoc|]. split.
  - rewrite after_pages_files_other; [done|].
    intros g Hg Heq. apply screenshot_of_inj in Heq. subst g.
    destruct (Hbefore file Hg) as [_ Hfin']. congruence.
  - rewrite after_pages_pages. simpl. by rewrite map_app.
Qed.

(** C2, as amended. [takeImageStrip] ends the process with
    [process.exit(0)] exactly when the steps of its [try] block all return.
    When one of them throws, the error is logged as the last console line
    and [takeImageStrip] returns: the failure branch makes no exit call and
    assigns no exit code. In particular, with nothing listening or launched
    and a manifest file that cannot be read, the run fails in [startServer]
    and the process then ends with status 0. *)
Theorem takeImageStrip_exit (E : Env) (st : State) :
  (fst (takeImageStrip E st) = Exited 0 <->
   fst (full_run E st) = Returned tt) /\
  (forall error, fst (full_run E st) = Thrown error ->
     fst (takeImageStrip E st) = Returned tt /\
     console (snd (takeImageStrip E st)) =
       (console (snd (full_run E st)) ++ [ErrorLog error])%list) /\
  (listening st = None -> browser_open st = false ->
   ~ manifest_readable st ->
     (exists error, fst (full_run E st) = Thrown error) /\
     process_status (takeImageStrip E st) = Terminated 0).
Proof.
  split; [|split].
  - rewrite takeImageStrip_full_run.
    pose proof (no_exit_full_run E st) as Hno.
    destruct (full_run E st) as [[[]|error|code|] st']; simpl in *;
      [done | done | by destruct (Hno code) | done].
  - intros error Hthrown. rewrite takeImageStrip_full_run.
    destruct (full_run E st) as [[[]|error'|code|] st']; simpl in *;
      try done.
    by injection Hthrown as ->.
  - intros Hlistening Hbrowser Hmissing.
    destruct (startServer_outcome st)
      as [(Hall & _)|[(Hall & _)|(entry & Hin & Hentry & Hserver)]];
      [done..|].
    assert (full_run E st = (Thrown (ENOENT (filePath entry)), st)) as Hrun
      by (unfold full_run; unfold bind at 1; by rewrite Hserver).
    rewrite takeImageStrip_full_run, Hrun. simpl.
    split; [by eexists|]. by rewrite Hlistening, Hbrowser.
Qed.

(** C5. With a directory listing made of [a.json], [b.json] and [c.txt],
    in any order, and pages that open and finish, [iteratePages] processes
    the two [.json] files and nothing else: their pages are opened, in the
    order of the listing, their screenshots are written, and [c.txt] is
    left out. *)
Theorem iteratePages_json_only
    (E : Env) (settings : Settings) (st : State) (entries : list string) :
  entries ≡ₚ ["a.json"; "b.json"; "c.txt"] ->
  listing E examplesDirectory = Some entries ->
  (forall file, file ∈ ["a.json"; "b.json"] ->
     navigates E (page_of settings file) = true /\
     finished_within E (page_of settings file) 20000 = true) ->
  jsonFilter entries ≡ₚ ["a.json"; "b.json"] /\
  ("c.txt" ∉ jsonFilter entries) /\
  exists st',
    iteratePages E settings st = (Returned tt, st') /\
    pages st' = (pages st ++ map (page_of settings) (jsonFilter entries))%list /\
    files st' !! screenshot_of "a.json" =
      Some (rendering E (page_of settings "a.json")) /\
    files st' !! screenshot_of "b.json" =
      Some (rendering E (page_of settings "b.json")) /\
    files st' !! screenshot_of "c.txt" =
      files st !! screenshot_of "c.txt".
Proof.
  intros Hperm Hlist Hpages.
  assert (jsonFilter entries ≡ₚ ["a.json"; "b.json"]) as Hjson.
  { unfold jsonFilter. rewrite Hperm. by vm_compute. }
  assert ("c.txt" ∉ jsonFilter entries) as Hskip.
  { rewrite Hjson, !elem_of_cons, elem_of_nil. by intros [H|[H|[]]]. }
  split; [done|]. split; [done|].
  eexists. split.
  { rewrite (iteratePages_listed _ _ _ entries) by done.
    apply forEach_returns. intros file Hfile. apply Hpages.
    by rewrite <- Hjson. }
  split; [apply after_pages_pages|].
  split; [apply after_pages_files_written; rewrite Hjson; by left|].
  split; [apply after_pages_files_written; rewrite Hjson; right; by left|].
  apply after_pages_files_other.
  intros file Hfile Heq. apply screenshot_of_inj in Heq. by subst file.
Qed.

(** ** The script on the sample environment *)

Example indexOf_samples :
  indexOf "a.json" ".json" = 1 /\
  indexOf "c.txt" ".json" = -1 /\
  indexOf "notes.json.txt" ".json" = 5.
Proof. by vm_compute. Qed.

Example jsonFilter_sample :
  jsonFilter ["c.txt"; "b.json"; "notes.json.txt"; "a.json"] =
    ["b.json"; "notes.json.txt"; "a.json"].
Proof. by vm_compute. Qed.

Example type_samples :
  resolution_type quietEnv "2" = num_of_Z 2 /\
  resolution_type quietEnv "0" = num1 /\
  sampleRate_type quietEnv "fast" = num1 /\
  renderer_type "canvas" = "canvas" /\
  renderer_type "webgl" = "svg".
Proof. by vm_compute. Qed.

(** A run where every page finishes ends with [process.exit(0)], the two
    pages opened in turn. *)
Example run_completes :
  let r := takeImageStrip (sampleEnv noArguments (fun _ => false))
                          (boot manifestDisk) in
  fst r = Exited 0 /\
  map pr_path (pages (snd r)) = ["../examples/a.json"; "../examples/b.json"] /\
  browser_open (snd r) = false.
Proof. by vm_compute. Qed.

(** A run where the first page never finishes stops there. *)
Example run_stops_at_first_timeout :
  let r := takeImageStrip
             (sampleEnv noArguments (String.eqb "../examples/a.json"))
             (boot manifestDisk) in
  fst r = Returned tt /\
  console (snd r) =
    [PageLog "loaded ../examples/a.json"; ErrorLog (TimeoutError 20000)] /\
  map pr_path (pages (snd r)) = ["../examples/a.json"] /\
  files (snd r) !! screenshot_of "a.json" = None /\
  browser_open (snd r) = true.
Proof. by vm_compute. Qed.

(** With port 8080 held by another process the run dies before the
    settings are read: nothing is logged and the status is 1. *)
Example run_dies_on_taken_port :
  let r := takeImageStrip (sampleEnv noArguments (fun _ => false))
                          (boot_port_taken manifestDisk) in
  fst r = Crashed /\
  console (snd r) = [] /\
  listening (snd r) = None /\
  browser_open (snd r) = false /\
  process_status r = Terminated 1.
Proof. by vm_compute. Qed.

(** An option without a value leaves [null] in the settings, and the page
    is opened with it. *)
Example run_with_bare_renderer :
  let r := takeImageStrip (sampleEnv bareRenderer (fun _ => false))
                          (boot manifestDisk) in
  fst r = Exited 0 /\
  map pr_renderer (pages (snd r)) = [None; None].
Proof. by vm_compute. Qed.

Lemma manifestDisk_readable entry :
  entry ∈ filesData -> is_Some (manifestDisk !! filePath entry).
Proof.
  revert entry. apply Forall_forall. unfold filesData.
  repeat (constructor; [eexists; by vm_compute|]). constructor.
Qed.

Lemma timeout_aborts_run_witness :
  finished_within (sampleEnv noArguments (String.eqb "../examples/b.json"))
    (page_of defaultSettings "b.json") 20000 = false /\
  exists st',
    takeImageStrip (sampleEnv noArguments (String.eqb "../examples/b.json"))
      (boot manifestDisk) = (Returned tt, st') /\
    last (console st') = Some (ErrorLog (TimeoutError 20000)) /\
    files st' !! screenshot_of "b.json" = manifestDisk !! screenshot_of "b.json" /\
    pages st' = map (page_of defaultSettings) (["a.json"] ++ ["b.json"]).
Proof.
  split; [reflexivity|].
  apply (timeout_aborts_run
           (sampleEnv noArguments (String.eqb "../examples/b.json"))
           manifestDisk defaultSettings ["a.json"; "b.json"; "c.txt"]
           ["a.json"] "b.json" []).
  - apply manifestDisk_readable.
  - intros st. reflexivity.
  - reflexivity.
  - reflexivity.
  - by vm_compute.
  - intros g Hg. apply list_elem_of_singleton in Hg as ->. by vm_compute.
  - reflexivity.
  - reflexivity.
Defined.

Lemma takeImageStrip_exit_witness :
  ~ manifest_readable (boot ∅) /\
  (exists error,
     fst (full_run (sampleEnv noArguments (fun _ => false)) (boot ∅)) =
       Thrown error) /\
  process_status
    (takeImageStrip (sampleEnv noArguments (fun _ => false)) (boot ∅)) =
    Terminated 0.
Proof.
  assert (~ manifest_readable (boot ∅)) as Hmissing.
  { intros Hall.
    destruct (Hall (mkFile "/js/main.js" "./js/main.js" "js")) as [content H];
      [by left | by vm_compute in H]. }
  split; [exact Hmissing|].
  apply (takeImageStrip_exit (sampleEnv noArguments (fun _ => false)) (boot ∅));
    [reflexivity | reflexivity | exact Hmissing].
Defined.

(** C2, as stated, fails. With no manifest file on disk the full run
    throws before the listener is bound; the error is logged, nothing is
    left to keep the process alive and it ends with status 0. *)
Lemma exit_code_contract_fails :
  full_run (sampleEnv noArguments (fun _ => false)) (boot ∅) =
    (Thrown (ENOENT "./js/main.js"), boot ∅) /\
  console (snd (takeImageStrip (sampleEnv noArguments (fun _ => false)) (boot ∅))) =
    [ErrorLog (ENOENT "./js/main.js")] /\
  process_status (takeImageStrip (sampleEnv noArguments (fun _ => false)) (boot ∅)) =
    Terminated 0 /\
  ~ exit_code_contract (sampleEnv noArguments (fun _ => false)) (boot ∅).
Proof.
  split; [by vm_compute|]. split; [by vm_compute|]. split; [by vm_compute|].
  intros [Hzero _].
  assert (process_status
            (takeImageStrip (sampleEnv noArguments (fun _ => false)) (boot ∅)) =
          Terminated 0) as Hstatus by by vm_compute.
  apply Hzero in Hstatus. by vm_compute in Hstatus.
Qed.

Lemma getSettings_number_option_without_value_witness :
  argv (sampleEnv bareResolution (fun _ => false)) = bareResolution /\
  exists settings,
    getSettings (sampleEnv bareResolution (fun _ => false)) (boot ∅) =
      (Returned settings, boot ∅) /\
    resolution settings = None /\
    resolution settings <> Some num1.
Proof.
  split; [reflexivity|].
  destruct (getSettings_number_option_without_value
              (sampleEnv bareResolution (fun _ => false))
              (mkCommandLine NoValue NotGiven NotGiven) (boot ∅) eq_refl)
    as (settings & Hrun & Hresolution & _).
  exists settings. split; [exact Hrun|]. exact (Hresolution eq_refl).
Defined.

Lemma getSettings_renderer_without_value_witness :
  argv (sampleEnv bareRenderer (fun _ => false)) = bareRenderer /\
  exists settings,
    getSettings (sampleEnv bareRenderer (fun _ => false)) (boot ∅) =
      (Returned settings, boot ∅) /\
    renderer settings = None /\
    renderer settings <> Some "svg".
Proof.
  split; [reflexivity|].
  apply (getSettings_renderer_without_value
           (sampleEnv bareRenderer (fun _ => false))
           (mkCommandLine NotGiven NotGiven NoValue) (boot ∅));
    reflexivity.
Defined.

Lemma iteratePages_json_only_witness :
  listing quietEnv examplesDirectory = Some ["a.json"; "b.json"; "c.txt"] /\
  jsonFilter ["a.json"; "b.json"; "c.txt"] ≡ₚ ["a.json"; "b.json"] /\
  ("c.txt" ∉ jsonFilter ["a.json"; "b.json"; "c.txt"]) /\
  exists st',
    iteratePages quietEnv defaultSettings (boot ∅) = (Returned tt, st') /\
    pages st' =
      (pages (boot ∅) ++
       map (page_of defaultSettings)
           (jsonFilter ["a.json"; "b.json"; "c.txt"]))%list /\
    files st' !! screenshot_of "a.json" =
      Some (rendering quietEnv (page_of defaultSettings "a.json")) /\
    files st' !! screenshot_of "b.json" =
      Some (rendering quietEnv (page_of defaultSettings "b.json")) /\
    files st' !! screenshot_of "c.txt" =
      files (boot ∅) !! screenshot_of "c.txt".
Proof.
  split; [reflexivity|].
  apply (iteratePages_json_only quietEnv defaultSettings (boot ∅)
           ["a.json"; "b.json"; "c.txt"]).
  - reflexivity.
  - reflexivity.
  - intros file Hfile. split; reflexivity.
Defined.

Lemma proxyRoute_unreadable_is_empty_200_witness :
  files (boot sampleDisk) !! (".." ++ "/examples/missing.json") = None /\
  exists response,
    proxyRoute (mkRequest "/examples/missing.json") (boot sampleDisk) =
      (Returned response, boot sampleDisk) /\
    status response = 200 /\
    body response = Str EmptyString /\
    status response <> 404 /\
    status response <> 500.
Proof.
  split; [by vm_compute|].
  apply (proxyRoute_unreadable_is_empty_200
           (mkRequest "/examples/missing.json") (boot sampleDisk)).
  by vm_compute.
Defined.

Lemma proxyRoute_text_or_image_witness :
  files (boot sampleDisk) !! (".." ++ "/examples/a.json") = Some "{}" /\
  exists response,
    proxyRoute (mkRequest "/examples/a.json") (boot sampleDisk) =
      (Returned response, boot sampleDisk) /\
    status response = 200 /\
    body response = Str "{}".
Proof.
  split; [by vm_compute|].
  destruct (proxyRoute_text_or_image
              (mkRequest "/examples/a.json") (boot sampleDisk) "{}")
    as (response & Hrun & Hstatus & Htext & _); [by vm_compute|].
  exists response. split; [exact Hrun|]. split; [exact Hstatus|].
  apply Htext. by exists "/examples/a", EmptyString.
Defined.

Lemma respond_serves_any_readable_path_witness :
  files (boot sampleDisk) !! (".." ++ "/../notes.json.txt") = Some "secret" /\
  exists response,
    respond quietEnv (cached_routes manifestDisk)
            (mkRequest "/../notes.json.txt") (boot sampleDisk) =
      (Returned response, boot sampleDisk) /\
    status response = 200 /\
    body response = Str "secret".
Proof.
  split; [by vm_compute|].
  destruct (respond_serves_any_readable_path
              quietEnv (cached_routes manifestDisk)
              (mkRequest "/../notes.json.txt") (boot sampleDisk) "secret")
    as (response & Hrun & Hstatus & _ & Htext & _);
    [by vm_compute..|].
  exists response. split; [exact Hrun|]. split; [exact Hstatus|].
  apply Htext. by exists "/../notes", ".txt".
Defined.

Lemma checkMD5Sum_no_effect_witness :
  files (boot sampleDisk) !! screenshot_of "a.json" = Some "image" /\
  checkMD5Sum quietEnv "a.json" (screenshot_of "a.json") (boot sampleDisk) =
    (Returned tt, boot sampleDisk) /\
  checkMD5Sum_branch quietEnv "a.json" (screenshot_of "a.json") (boot sampleDisk) =
    (Returned Changed, boot sampleDisk).
Proof.
  split; [by vm_compute|].
  destruct (checkMD5Sum_no_effect quietEnv "a.json" (screenshot_of "a.json")
              (boot sampleDisk)) as (_ & Hfile).
  destruct (Hfile "image") as (Hrun & _ & _ & Hchanged); [by vm_compute|].
  split; [exact Hrun|].
  apply (Hchanged "old sum"); by vm_compute.
Defined.

Lemma checkMD5Sum_missing_sum_is_new_file_witness :
  files (boot ∅) !! md5_of "a.json" = None /\
  getFileAsString (md5_of "a.json") (boot ∅) = (Returned EmptyString, boot ∅) /\
  checkMD5Sum_branch quietEnv "a.json" (screenshot_of "a.json") (boot ∅) =
    (Returned NewFile, boot ∅) /\
  checkMD5Sum quietEnv "a.json" (screenshot_of "a.json") (boot ∅) =
    (Returned tt, boot ∅).
Proof.
  split; [by vm_compute|].
  apply (checkMD5Sum_missing_sum_is_new_file quietEnv "a.json"
           (screenshot_of "a.json") (boot ∅)).
  by vm_compute.
Defined.

(** * Further properties of the script *)

(** ** startServer and the manifest *)

(** X1. [startServer] returns, with the listener bound to the routes
    cached from the disk and nothing else changed, exactly when every file
    of the manifest can be read and port 8080 is free. A missing manifest
    file makes it throw [ENOENT] for a missing file with the state, and so
    the absence of a listener, unchanged; with the manifest readable and
    the port taken the process dies without a listener. *)
Theorem startServer_binds_listener_or_fails (st : State) :
  (manifest_readable st /\ port_taken st = false ->
   exists st1,
     startServer st = (Returned tt, st1) /\
     listening st1 = Some (cached_routes (files st)) /\
     files st1 = files st /\ console st1 = console st /\
     browser_open st1 = browser_open st /\ pages st1 = pages st) /\
  (forall st1, startServer st = (Returned tt, st1) ->
     manifest_readable st /\ port_taken st = false) /\
  (~ manifest_readable st ->
   exists entry,
     entry ∈ filesData /\ files st !! filePath entry = None /\
     startServer st = (Thrown (ENOENT (filePath entry)), st)) /\
  (manifest_readable st -> port_taken st = true ->
   startServer st = (Crashed, st)).
Proof.
  destruct (startServer_outcome st)
    as [(Hall & Hport & Hrun)
       |[(Hall & Hport & Hrun)|(missing & Hin & Hmissing & Hrun)]];
    rewrite Hrun.
  - split; [intros _; by eexists|]. split; [done|]. split; [done|].
    intros _ Htaken. congruence.
  - split; [intros [_ Hfree]; congruence|]. split; [done|]. split; [done|].
    done.
  - assert (~ manifest_readable st) as Hnot.
    { intros Hall. destruct (Hall missing Hin) as [content Hcontent].
      congruence. }
    split; [by intros [Hall _]|]. split; [done|].
    split; [intros _; by exists missing|]. done.
Qed.

Lemma find_map_only {A B} (f : A -> B) (P : B -> bool) (l : list A) (x : A) :
  x ∈ l -> P (f x) = true ->
  (forall y, y ∈ l -> P (f y) = true -> y = x) ->
  find P (map f l) = Some (f x).
Proof.
  induction l as [|y l IH]; intros Hin Hx Honly.
  - by apply not_elem_of_nil in Hin.
  - simpl. destruct (P (f y)) eqn:Hy.
    + by rewrite (Honly y) by (done || by left).
    + apply IH; [|done|].
      * apply elem_of_cons in Hin as [->|Hin]; [congruence | done].
      * intros z Hz. apply Honly. by right.
Qed.

Lemma manifest_has_content_type entry :
  entry ∈ filesData ->
  is_Some (getContentTypeHeader (type entry) !! "Content-Type").
Proof.
  revert entry. apply Forall_forall. unfold filesData.
  repeat (constructor; [eexists; by vm_compute|]). constructor.
Qed.

(** X2. Once [startServer] has returned, a request that matches the path
    of one manifest entry (and of no other) is answered with status 200,
    the content type of the entry's kind, and the content the file had when
    the server started: the answer does not depend on the disk at the time
    of the request. *)
Theorem manifest_route_serves_startup_content
    (E : Env) (st st1 later : State) (entry : FileEntry) (req : Request) :
  startServer st = (Returned tt, st1) ->
  entry ∈ filesData ->
  route_match E (path entry) (originalUrl req) = true ->
  (forall other, other ∈ filesData ->
     route_match E (path other) (originalUrl req) = true -> other = entry) ->
  exists routes content,
    listening st1 = Some routes /\
    files st !! filePath entry = Some content /\
    respond E routes req later =
      (Returned
         (mkResponse 200 (getContentTypeHeader (type entry))
            (match getEncoding (type entry) with
             | Some _ => Str content
             | None => Buf content
             end)),
       later) /\
    is_Some (getContentTypeHeader (type entry) !! "Content-Type").
Proof.
  intros Hstart Hentry Hmatch Honly.
  destruct (startServer_outcome st)
    as [(Hall & Hport & Hrun)
       |[(Hall & Hport & Hrun)|(missing & Hin & Hmissing & Hrun)]];
    [|congruence..].
  rewrite Hrun in Hstart. injection Hstart as <-.
  destruct (Hall entry Hentry) as [content Hcontent].
  exists (cached_routes (files st)), content.
  split; [done|]. split; [done|]. split; [|by apply manifest_has_content_type].
  unfold respond, cached_routes.
  rewrite (find_map_only (cached_route (files st))
             (fun route => route_match E (route_path route) (originalUrl req))
             filesData entry) by done.
  unfold manifestRoute, ret, res_writeHead_end, cached_route. simpl.
  by rewrite Hcontent.
Qed.

(** ** The settings *)

Lemma num1_valid_positive : valid_positive num1.
Proof. by split. Qed.

Lemma resolution_type_positive E val : valid_positive (resolution_type E val).
Proof.
  unfold resolution_type. cbv zeta.
  destruct (isNaN (Number E val)) eqn:Hnan; [apply num1_valid_positive|].
  destruct (num_le (Number E val) num0) eqn:Hle; [apply num1_valid_positive|].
  split; [done|]. by apply num_not_le_zero_lt.
Qed.

Lemma renderer_type_in value :
  In (renderer_type value) ["svg"; "canvas"; "skottie"].
Proof.
  unfold renderer_type, includes.
  destruct (existsb _ _) eqn:Hex; [|by left].
  apply existsb_exists in Hex as [known [Hin Heq]].
  apply String.eqb_eq in Heq. by subst known.
Qed.

(** X4. [getSettings] throws only when command-line-args does. Otherwise
    it leaves the state alone, and each setting is [null] exactly when its
    option stands on the command line without a value; a setting that is
    not [null] is always usable (the renderer is one of the three known
    ones, the resolution and the sample rate are numbers above zero), and
    an option that is absent takes its default ([svg], 1, 1) independently
    of the others. *)
Theorem getSettings_usable_or_null (E : Env) (st : State) :
  (argv E = None -> getSettings E st = (Thrown ArgumentError, st)) /\
  (forall cl, argv E = Some cl ->
     exists settings,
       getSettings E st = (Returned settings, st) /\
       (renderer settings = None <-> cl_renderer cl = NoValue) /\
       (resolution settings = None <-> cl_resolution cl = NoValue) /\
       (sampleRate settings = None <-> cl_sampleRate cl = NoValue) /\
       (forall value, renderer settings = Some value ->
          In value ["svg"; "canvas"; "skottie"]) /\
       (forall v, resolution settings = Some v -> valid_positive v) /\
       (forall v, sampleRate settings = Some v -> valid_positive v) /\
       (cl_renderer cl = NotGiven -> renderer settings = Some "svg") /\
       (cl_resolution cl = NotGiven -> resolution settings = Some num1) /\
       (cl_sampleRate cl = NotGiven -> sampleRate settings = Some num1)).
Proof.
  split.
  - intros Hargv. unfold getSettings, commandLineArgs, bind. by rewrite Hargv.
  - intros cl Hargv. eexists. split; [by apply getSettings_returns|]. simpl.
    split; [by destruct (cl_renderer cl)|].
    split; [by destruct (cl_resolution cl)|].
    split; [by destruct (cl_sampleRate cl)|].
    split.
    { intros value. destruct (cl_renderer cl); simpl; intros [= <-];
        [by left | apply renderer_type_in]. }
    split.
    { intros v. destruct (cl_resolution cl); simpl; intros [= <-];
        [apply num1_valid_positive | apply resolution_type_positive]. }
    split.
    { intros v. destruct (cl_sampleRate cl); simpl; intros [= <-];
        [apply num1_valid_positive | apply resolution_type_positive]. }
    repeat split; by intros ->.
Qed.

(** X14. For every value that stands after an option on the command line:
    the resolution and the sample rate of the settings are [Number] of the
    value when that is a number above zero and 1 when it is not a number or
    not above zero, one of the two being always the case; the renderer is
    the value when it is [svg], [canvas] or [skottie], and [svg]
    otherwise. *)
Theorem getSettings_supplied_values (E : Env) (cl : CommandLine) (st : State) :
  argv E = Some cl ->
  exists settings,
    getSettings E st = (Returned settings, st) /\
    (forall val, cl_resolution cl = Value val ->
       (valid_positive (Number E val) \/
        non_numeric_or_non_positive (Number E val)) /\
       (valid_positive (Number E val) ->
        resolution settings = Some (Number E val)) /\
       (non_numeric_or_non_positive (Number E val) ->
        resolution settings = Some num1)) /\
    (forall val, cl_sampleRate cl = Value val ->
       (valid_positive (Number E val) \/
        non_numeric_or_non_positive (Number E val)) /\
       (valid_positive (Number E val) ->
        sampleRate settings = Some (Number E val)) /\
       (non_numeric_or_non_positive (Number E val) ->
        sampleRate settings = Some num1)) /\
    (forall value, cl_renderer cl = Value value ->
       (In value ["svg"; "canvas"; "skottie"] ->
        renderer settings = Some value) /\
       (~ In value ["svg"; "canvas"; "skottie"] ->
        renderer settings = Some "svg")).
Proof.
  intros Hargv. eexists. split; [by apply getSettings_returns|]. simpl.
  split; [|split]; intros val Hval; rewrite Hval; simpl.
  - split; [apply number_kinds|]. split; intros Hkind.
    + by rewrite resolution_type_valid.
    + by rewrite resolution_type_invalid.
  - split; [apply number_kinds|]. split; intros Hkind.
    + by rewrite sampleRate_type_eq, resolution_type_valid.
    + by rewrite sampleRate_type_eq, resolution_type_invalid.
  - split; intros Hkind.
    + by rewrite renderer_type_known.
    + by rewrite renderer_type_unknown.
Qed.

(** ** The filter on the listing *)

(** X5. The filter of [iteratePages] keeps exactly the names in which
    [.json] occurs somewhere, not only at the end; it keeps their order
    and filtering twice changes nothing. *)
Theorem jsonFilter_keeps_names_with_json (entries : list string) :
  (forall file,
     file ∈ jsonFilter entries <-> file ∈ entries /\ contains file ".json") /\
  jsonFilter entries `sublist_of` entries /\
  jsonFilter (jsonFilter entries) = jsonFilter entries.
Proof.
  unfold jsonFilter. split; [|split].
  - intros file. rewrite list_elem_of_filter, indexOf_contains. tauto.
  - apply sublist_filter.
  - by apply list_filter_filter_l.
Qed.

(** ** checkMD5Sum *)

(** X6. [checkMD5Sum] throws in one case only: a sum is stored for the
    sample and the screenshot cannot be read. The error is then the
    [ENOENT] of the screenshot path and the state is unchanged. *)
Theorem checkMD5Sum_throws_only_without_screenshot
    (E : Env) (fileName filePath : string) (st : State) :
  forall error st',
    checkMD5Sum E fileName filePath st = (Thrown error, st') <->
    error = ENOENT filePath /\ st' = st /\
    default EmptyString (files st !! md5_of fileName) <> EmptyString /\
    files st !! filePath = None.
Proof.
  intros error st'.
  destruct (decide (default EmptyString (files st !! md5_of fileName)
                    = EmptyString)) as [Hempty|Hstored].
  - rewrite (checkMD5Sum_of_branch E _ _ _ NewFile)
      by by apply checkMD5Sum_branch_new.
    split; [done | by intros (_ & _ & Hne & _)].
  - destruct (files st !! filePath) as [content|] eqn:Hfile.
    + rewrite (checkMD5Sum_returns E _ _ _ content) by done.
      split; [done | by intros (_ & _ & _ & Hnone)].
    + unfold checkMD5Sum, checkMD5Sum_branch, bind. cbv zeta.
      fold (md5_of fileName). rewrite getFileAsString_returns.
      destruct (default EmptyString (files st !! md5_of fileName)) as [|c stored];
        [done|]. simpl. unfold md5File. rewrite Hfile.
      split; [by intros [= <- <-] | by intros (-> & -> & _)].
Qed.

(** ** The loop and the run, case by case *)

Lemma processPage_unopened E settings file st :
  navigates E (page_of settings file) = false ->
  processPage E settings examplesDirectory file st =
    (Thrown (NavigationError (examplesDirectory ++ file)), st).
Proof.
  intros Hnav. unfold page_of in Hnav.
  unfold processPage, bind, startPage. cbv zeta. by rewrite Hnav.
Qed.

(** The loop returns when every sample completes, and otherwise stops at
    the first sample whose page does not open or does not finish. *)
Lemma forEach_outcome E settings (samples : list string) st :
  ((forall g, g ∈ samples -> sample_completes E settings g) /\
   forEach samples (fun file => processPage E settings examplesDirectory file) st =
     (Returned tt, after_pages E settings st samples)) \/
  (exists before file after,
     samples = (before ++ file :: after)%list /\
     (forall g, g ∈ before -> sample_completes E settings g) /\
     ((navigates E (page_of settings file) = false /\
       forEach samples (fun file => processPage E settings examplesDirectory file) st =
         (Thrown (NavigationError (examplesDirectory ++ file)),
          after_pages E settings st before)) \/
      (navigates E (page_of settings file) = true /\
       finished_within E (page_of settings file) 20000 = false /\
       forEach samples (fun file => processPage E settings examplesDirectory file) st =
         (Thrown (TimeoutError 20000),
          opened_page E settings (after_pages E settings st before) file)))).
Proof.
  revert st. induction samples as [|sample samples IH]; intros st.
  - left. split; [|done]. intros g Hg. by apply not_elem_of_nil in Hg.
  - destruct (navigates E (page_of settings sample)) eqn:Hnav.
    + destruct (finished_within E (page_of settings sample) 20000) eqn:Hfin.
      * destruct (IH (after_page E settings st sample))
          as [[Hall Hrun]|(before & file & after & -> & Hbefore & Hstop)].
        -- left. split.
           ++ intros g [->|Hg]%elem_of_cons; [by split | by apply Hall].
           ++ simpl. unfold bind. by rewrite processPage_returns.
        -- right. exists (sample :: before), file, after.
           split; [done|]. split.
           ++ intros g [->|Hg]%elem_of_cons; [by split | by apply Hbefore].
           ++ simpl. unfold bind. rewrite processPage_returns by done.
              exact Hstop.
      * right. exists [], sample, samples. split; [done|]. split.
        -- intros g Hg. by apply not_elem_of_nil in Hg.
        -- right. split; [done|]. split; [done|].
           simpl. unfold bind. by rewrite processPage_timeout.
    + right. exists [], sample, samples. split; [done|]. split.
      * intros g Hg. by apply not_elem_of_nil in Hg.
      * left. split; [done|].
        simpl. unfold bind. by rewrite processPage_unopened.
Qed.

Lemma getSettings_cases E :
  (argv E = None /\ forall s, getSettings E s = (Thrown ArgumentError, s)) \/
  (exists settings, forall s, getSettings E s = (Returned settings, s)).
Proof.
  destruct (argv E) as [cl|] eqn:Hargv.
  - right. eexists. intros s. by apply getSettings_returns.
  - left. split; [done|]. intros s.
    unfold getSettings, commandLineArgs, bind. by rewrite Hargv.
Qed.

Lemma after_pages_browser_open E settings st samples :
  browser_open (after_pages E settings st samples) = browser_open st.
Proof.
  revert st. induction samples as [|file samples IH]; intros st; [done|].
  by rewrite after_pages_cons, IH.
Qed.

(** The steps of [takeImageStrip] go one of the nine ways. *)
Lemma full_run_case E st : FullRun E st (full_run E st).
Proof.
  unfold full_run. unfold bind at 1.
  destruct (startServer_outcome st)
    as [(Hall & Hport & Hserver)
       |[(Hall & Hport & Hserver)|(missing & Hin & Hmissing & Hserver)]];
    rewrite Hserver;
    [|by apply run_port_taken|by apply run_manifest_missing].
  unfold wait, ret. unfold bind at 1 2.
  destruct (getSettings_cases E) as [[Hargv Hsettings]|[settings Hsettings]];
    rewrite Hsettings; [by apply run_bad_arguments|].
  unfold bind at 1. unfold getBrowser at 1.
  destruct (launches E) eqn:Hlaunch; [|by eapply run_no_launch].
  fold (launched_state (listening_state st)). unfold bind at 1.
  destruct (listing E examplesDirectory) as [entries|] eqn:Hlist.
  - rewrite (iteratePages_listed _ _ _ entries) by done.
    destruct (forEach_outcome E settings (jsonFilter entries)
                (launched_state (listening_state st)))
      as [[Hsamples Hloop]
         |(before & file & after & Hjson & Hbefore
           & [[Hnav Hloop]|(Hnav & Hfin & Hloop)])];
      rewrite Hloop.
    + unfold browser_close. destruct (closes E) eqn:Hclose.
      * by eapply run_complete.
      * by eapply run_no_close.
    + by eapply run_no_navigation.
    + by eapply run_timeout.
  - assert (iteratePages E settings (launched_state (listening_state st)) =
            (Thrown (ENOENT examplesDirectory),
             launched_state (listening_state st))) as ->
      by (unfold iteratePages, getDirFiles, bind; by rewrite Hlist).
    by eapply run_no_listing.
Qed.

(** X7. When [iteratePages] returns, the examples directory could be
    listed and no [.json] name of the listing was skipped or left
    unfinished: the page of each opened and finished within the 20000 ms,
    the pages were opened one per name in the order of the listing, each
    name has the image of its page under [./screenshots/<name>.png], and
    every other file, the listener and the browser are as before. *)
Theorem iteratePages_returns_only_after_every_sample
    (E : Env) (settings : Settings) (st st' : State) :
  iteratePages E settings st = (Returned tt, st') ->
  exists entries,
    listing E examplesDirectory = Some entries /\
    (forall g, g ∈ jsonFilter entries -> sample_completes E settings g) /\
    pages st' = (pages st ++ map (page_of settings) (jsonFilter entries))%list /\
    (forall file, file ∈ jsonFilter entries ->
       files st' !! (destinationDirectory ++ "/" ++ file ++ ".png") =
         Some (rendering E (page_of settings file))) /\
    (forall path,
       (forall file, file ∈ jsonFilter entries ->
          path <> destinationDirectory ++ "/" ++ file ++ ".png") ->
       files st' !! path = files st !! path) /\
    listening st' = listening st /\
    browser_open st' = browser_open st.
Proof.
  intros Hrun.
  destruct (listing E examplesDirectory) as [entries|] eqn:Hlist.
  - rewrite (iteratePages_listed _ _ _ entries) in Hrun by done.
    destruct (forEach_outcome E settings (jsonFilter entries) st)
      as [[Hsamples Hloop]
         |(before & file & after & Hjson & Hbefore
           & [[Hnav Hloop]|(Hnav & Hfin & Hloop)])];
      rewrite Hloop in Hrun; try done.
    injection Hrun as <-. exists entries.
    split; [done|]. split; [done|].
    split; [apply after_pages_pages|].
    split; [intros file Hfile; by apply after_pages_files_written|].
    split.
    { intros path Hother. apply after_pages_files_other.
      intros file Hfile Heq. by apply (Hother file). }
    split; [apply after_pages_listening | apply after_pages_browser_open].
  - unfold iteratePages, getDirFiles, bind in Hrun. by rewrite Hlist in Hrun.
Qed.

(** ** What the run writes *)

(** A path is the screenshot of a processed sample, holding its image, or
    is as it was. *)
Lemma after_pages_files_cases E settings st (samples : list string) path :
  (exists file,
     file ∈ samples /\ path = screenshot_of file /\
     files (after_pages E settings st samples) !! path =
       Some (rendering E (page_of settings file))) \/
  files (after_pages E settings st samples) !! path = files st !! path.
Proof.
  destruct (decide (Exists (fun file => screenshot_of file = path) samples))
    as [Hsome|Hnone].
  - apply Exists_exists in Hsome as (file & Hin & <-).
    left. exists file. split; [done|]. split; [done|].
    by apply after_pages_files_written.
  - right. apply after_pages_files_other. intros file Hin Heq.
    apply Hnone, Exists_exists. by exists file.
Qed.

Lemma screenshot_of_not_md5_of file fileName :
  screenshot_of file <> md5_of fileName.
Proof.
  unfold screenshot_of, md5_of, destinationDirectory, md5Directory.
  unfold_append. congruence.
Qed.

Lemma screenshot_of_not_example file sample :
  screenshot_of file <> examplesDirectory ++ sample.
Proof.
  unfold screenshot_of, destinationDirectory, examplesDirectory.
  unfold_append. congruence.
Qed.

Lemma takeImageStrip_files E st :
  files (snd (takeImageStrip E st)) = files (snd (full_run E st)).
Proof.
  rewrite takeImageStrip_full_run.
  by destruct (full_run E st) as [[[]|error|code|] st'].
Qed.

(** Every path the steps change is the screenshot of a listed sample. *)
Lemma full_run_files E st path :
  files (snd (full_run E st)) !! path = files st !! path \/
  exists settings entries file,
    (forall s, getSettings E s = (Returned settings, s)) /\
    listing E examplesDirectory = Some entries /\
    file ∈ jsonFilter entries /\
    path = screenshot_of file /\
    files (snd (full_run E st)) !! path =
      Some (rendering E (page_of settings file)).
Proof.
  destruct (full_run_case E st)
    as [entry Hin Hmissing
       | Hall Hport
       | Hall Hport Hargv
       | settings Hall Hport Hsettings Hlaunch
       | settings Hall Hport Hsettings Hlaunch Hlist
       | settings entries before file after Hall Hport Hsettings Hlaunch Hlist Hjson Hbefore Hnav
       | settings entries before file after Hall Hport Hsettings Hlaunch Hlist Hjson Hbefore Hnav Hfin
       | settings entries Hall Hport Hsettings Hlaunch Hlist Hsamples Hclose
       | settings entries Hall Hport Hsettings Hlaunch Hlist Hsamples Hclose];
    simpl; try (by left).
  - destruct (after_pages_files_cases E settings
                (launched_state (listening_state st)) before path)
      as [(sample & Hsample & -> & Hwritten)|Hsame]; [|by left].
    right. exists settings, entries, sample. repeat split; try done.
    rewrite Hjson. apply elem_of_app. by left.
  - destruct (after_pages_files_cases E settings
                (launched_state (listening_state st)) before path)
      as [(sample & Hsample & -> & Hwritten)|Hsame]; [|by left].
    right. exists settings, entries, sample. repeat split; try done.
    rewrite Hjson. apply elem_of_app. by left.
  - destruct (after_pages_files_cases E settings
                (launched_state (listening_state st)) (jsonFilter entries) path)
      as [(sample & Hsample & -> & Hwritten)|Hsame]; [|by left].
    right. by exists settings, entries, sample.
  - destruct (after_pages_files_cases E settings
                (launched_state (listening_state st)) (jsonFilter entries) path)
      as [(sample & Hsample & -> & Hwritten)|Hsame]; [|by left].
    right. by exists settings, entries, sample.
Qed.

(** X8. Whatever the environment and however the run ends, the only files
    [takeImageStrip] changes are screenshots of [.json] samples of the
    listing, and such a file then holds the image of that sample's page. In
    particular no stored sum and no file of the examples directory is ever
    written. *)
Theorem takeImageStrip_writes_only_screenshots (E : Env) (st : State) :
  (forall path,
     files (snd (takeImageStrip E st)) !! path <> files st !! path ->
     exists settings entries file,
       (forall s, getSettings E s = (Returned settings, s)) /\
       listing E examplesDirectory = Some entries /\
       file ∈ jsonFilter entries /\
       path = screenshot_of file /\
       files (snd (takeImageStrip E st)) !! path =
         Some (rendering E (page_of settings file))) /\
  (forall fileName,
     files (snd (takeImageStrip E st)) !! md5_of fileName =
       files st !! md5_of fileName) /\
  (forall sample,
     files (snd (takeImageStrip E st)) !! (examplesDirectory ++ sample) =
       files st !! (examplesDirectory ++ sample)).
Proof.
  rewrite takeImageStrip_files. split; [|split].
  - intros path Hchanged.
    by destruct (full_run_files E st path) as [Hsame|Hwritten].
  - intros fileName.
    destruct (full_run_files E st (md5_of fileName))
      as [Hsame|(settings & entries & file & _ & _ & _ & Heq & _)]; [done|].
    symmetry in Heq. by apply screenshot_of_not_md5_of in Heq.
  - intros sample.
    destruct (full_run_files E st (examplesDirectory ++ sample))
      as [Hsame|(settings & entries & file & _ & _ & _ & Heq & _)]; [done|].
    symmetry in Heq. by apply screenshot_of_not_example in Heq.
Qed.

(** ** When the run completes *)

(** X9. [takeImageStrip] reaches [process.exit(0)] only after everything
    has gone well: every manifest file could be read, port 8080 was free,
    the arguments were accepted, the browser launched, the examples
    directory could be listed, the page of every [.json] name of the
    listing opened and finished in time, and the browser closed. Every
    such name then has the image of its page on disk, and the browser is
    closed. *)
Theorem takeImageStrip_exits_zero_only_after_everything
    (E : Env) (st : State) :
  fst (takeImageStrip E st) = Exited 0 ->
  manifest_readable st /\
  port_taken st = false /\
  exists settings entries,
    (forall s, getSettings E s = (Returned settings, s)) /\
    launches E = true /\
    listing E examplesDirectory = Some entries /\
    (forall g, g ∈ jsonFilter entries -> sample_completes E settings g) /\
    closes E = true /\
    (forall file, file ∈ jsonFilter entries ->
       files (snd (takeImageStrip E st))
         !! (destinationDirectory ++ "/" ++ file ++ ".png") =
         Some (rendering E (page_of settings file))) /\
    browser_open (snd (takeImageStrip E st)) = false.
Proof.
  rewrite takeImageStrip_full_run.
  destruct (full_run_case E st)
    as [entry Hin Hmissing
       | Hall Hport
       | Hall Hport Hargv
       | settings Hall Hport Hsettings Hlaunch
       | settings Hall Hport Hsettings Hlaunch Hlist
       | settings entries before file after Hall Hport Hsettings Hlaunch Hlist Hjson Hbefore Hnav
       | settings entries before file after Hall Hport Hsettings Hlaunch Hlist Hjson Hbefore Hnav Hfin
       | settings entries Hall Hport Hsettings Hlaunch Hlist Hsamples Hclose
       | settings entries Hall Hport Hsettings Hlaunch Hlist Hsamples Hclose];
    simpl; try done.
  intros _. split; [done|]. split; [done|].
  exists settings, entries. do 5 (split; [done|]). split; [|done].
  intros file Hfile. by apply after_pages_files_written.
Qed.

(** ** What a caught failure leaves behind *)

(** X12. With the manifest readable and the port free, a run that does
    not reach [process.exit(0)] has caught an error and returned with the
    listener still bound; and if the arguments were accepted and the
    browser launched, the browser has not been closed: [browser.close()] is
    only reached after the last sample, and the [catch] does not clean
    up. *)
Theorem caught_failure_skips_cleanup (E : Env) (st : State) :
  manifest_readable st ->
  port_taken st = false ->
  fst (takeImageStrip E st) = Exited 0 \/
  fst (takeImageStrip E st) = Returned tt /\
  listening (snd (takeImageStrip E st)) = Some (cached_routes (files st)) /\
  (is_Some (argv E) -> launches E = true ->
   browser_open (snd (takeImageStrip E st)) = true).
Proof.
  intros Hreadable Hfree. rewrite takeImageStrip_full_run.
  destruct (full_run_case E st)
    as [entry Hin Hmissing
       | Hall Hport
       | Hall Hport Hargv
       | settings Hall Hport Hsettings Hlaunch
       | settings Hall Hport Hsettings Hlaunch Hlist
       | settings entries before file after Hall Hport Hsettings Hlaunch Hlist Hjson Hbefore Hnav
       | settings entries before file after Hall Hport Hsettings Hlaunch Hlist Hjson Hbefore Hnav Hfin
       | settings entries Hall Hport Hsettings Hlaunch Hlist Hsamples Hclose
       | settings entries Hall Hport Hsettings Hlaunch Hlist Hsamples Hclose];
    simpl.
  - destruct (Hreadable entry Hin) as [content Hcontent]. congruence.
  - congruence.
  - right. repeat split. intros [cl Hcl] _. congruence.
  - right. repeat split. intros _ Hyes. congruence.
  - right. by repeat split.
  - right. rewrite after_pages_listening, after_pages_browser_open.
    by repeat split.
  - right. rewrite after_pages_listening, after_pages_browser_open.
    by repeat split.
  - right. rewrite after_pages_listening, after_pages_browser_open.
    by repeat split.
  - by left.
Qed.

(** ** The pages of a run *)

(** X13. However a run ends, the pages it has opened are those of a
    prefix of the [.json] names of the listing, in the order of the listing
    and with the settings of the run; none is opened before the browser is
    launched. *)
Theorem takeImageStrip_opens_a_prefix (E : Env) (st : State) :
  exists opened,
    pages (snd (takeImageStrip E st)) = (pages st ++ opened)%list /\
    (opened = [] \/
     exists settings entries processed,
       (forall s, getSettings E s = (Returned settings, s)) /\
       launches E = true /\
       listing E examplesDirectory = Some entries /\
       processed `prefix_of` jsonFilter entries /\
       opened = map (page_of settings) processed).
Proof.
  rewrite takeImageStrip_full_run.
  destruct (full_run_case E st)
    as [entry Hin Hmissing
       | Hall Hport
       | Hall Hport Hargv
       | settings Hall Hport Hsettings Hlaunch
       | settings Hall Hport Hsettings Hlaunch Hlist
       | settings entries before file after Hall Hport Hsettings Hlaunch Hlist Hjson Hbefore Hnav
       | settings entries before file after Hall Hport Hsettings Hlaunch Hlist Hjson Hbefore Hnav Hfin
       | settings entries Hall Hport Hsettings Hlaunch Hlist Hsamples Hclose
       | settings entries Hall Hport Hsettings Hlaunch Hlist Hsamples Hclose];
    simpl.
  - exists []. rewrite app_nil_r. split; [done | by left].
  - exists []. rewrite app_nil_r. split; [done | by left].
  - exists []. rewrite app_nil_r. split; [done | by left].
  - exists []. rewrite app_nil_r. split; [done | by left].
  - exists []. rewrite app_nil_r. split; [done | by left].
  - exists (map (page_of settings) before).
    split; [by rewrite after_pages_pages|].
    right. exists settings, entries, before. repeat split; try done.
    rewrite Hjson. by apply prefix_app_r.
  - exists (map (page_of settings) (before ++ [file])).
    split; [rewrite after_pages_pages, map_app; by rewrite <- app_assoc|].
    right. exists settings, entries, (before ++ [file])%list.
    repeat split; try done.
    rewrite Hjson. exists after. by rewrite <- app_assoc.
  - exists (map (page_of settings) (jsonFilter entries)).
    split; [by rewrite after_pages_pages|].
    right. by exists settings, entries, (jsonFilter entries).
  - exists (map (page_of settings) (jsonFilter entries)).
    split; [by rewrite after_pages_pages|].
    right. by exists settings, entries, (jsonFilter entries).
Qed.

(** ** The further properties on the sample environment *)

Lemma manifest_route_serves_startup_content_witness :
  startServer (boot manifestDisk) =
    (Returned tt, snd (startServer (boot manifestDisk))) /\
  exists routes content,
    listening (snd (startServer (boot manifestDisk))) = Some routes /\
    files (boot manifestDisk) !! "../examples/rectangle.json" = Some content /\
    respond quietEnv routes (mkRequest "/lottie.json") (boot ∅) =
      (Returned
         (mkResponse 200 (getContentTypeHeader "json")
            (match getEncoding "json" with
             | Some _ => Str content
             | None => Buf content
             end)),
       boot ∅) /\
    is_Some (getContentTypeHeader "json" !! "Content-Type").
Proof.
  split; [by vm_compute|].
  apply (manifest_route_serves_startup_content quietEnv
           (boot manifestDisk) (snd (startServer (boot manifestDisk))) (boot ∅)
           (mkFile "/lottie.json" "../examples/rectangle.json" "json")
           (mkRequest "/lottie.json")).
  - by vm_compute.
  - apply list_elem_of_In. simpl. auto 12.
  - by vm_compute.
  - apply (proj1 (Forall_forall
             (fun other =>
                route_match quietEnv (path other) "/lottie.json" = true ->
                other = mkFile "/lottie.json" "../examples/rectangle.json" "json")
             filesData)).
    unfold filesData.
    repeat (constructor; [vm_compute; by intros|]). constructor.
Defined.

Lemma checkMD5Sum_throws_only_without_screenshot_witness :
  checkMD5Sum quietEnv "a.json" (screenshot_of "a.json")
    (boot {[ "./md5sum/lottie_web/a.json.md5" := "old sum" ]}) =
    (Thrown (ENOENT (screenshot_of "a.json")),
     boot {[ "./md5sum/lottie_web/a.json.md5" := "old sum" ]}).
Proof.
  apply (checkMD5Sum_throws_only_without_screenshot quietEnv "a.json"
           (screenshot_of "a.json")
           (boot {[ "./md5sum/lottie_web/a.json.md5" := "old sum" ]})).
  repeat split; by vm_compute.
Defined.

Lemma getSettings_supplied_values_witness :
  argv quietEnv = sampleArguments /\
  exists settings,
    getSettings quietEnv (boot ∅) = (Returned settings, boot ∅) /\
    resolution settings = Some (num_of_Z 2) /\
    sampleRate settings = Some num1 /\
    renderer settings = Some "svg".
Proof.
  split; [reflexivity|].
  destruct (getSettings_supplied_values quietEnv
              (mkCommandLine (Value "2") (Value "fast") (Value "webgl")) (boot ∅)
              eq_refl)
    as (settings & Hrun & Hresolution & HsampleRate & Hrenderer).
  exists settings. split; [exact Hrun|]. split; [|split].
  - destruct (Hresolution "2" eq_refl) as (_ & Hvalid & _).
    apply Hvalid. by vm_compute.
  - destruct (HsampleRate "fast" eq_refl) as (_ & _ & Hinvalid).
    apply Hinvalid. left. by vm_compute.
  - destruct (Hrenderer "webgl" eq_refl) as (_ & Hunknown).
    apply Hunknown. simpl. by intros [H|[H|[H|[]]]].
Defined.

Lemma iteratePages_returns_only_after_every_sample_witness :
  iteratePages quietEnv defaultSettings (boot ∅) =
    (Returned tt, snd (iteratePages quietEnv defaultSettings (boot ∅))) /\
  exists entries,
    listing quietEnv examplesDirectory = Some entries /\
    jsonFilter entries = ["a.json"; "b.json"] /\
    files (snd (iteratePages quietEnv defaultSettings (boot ∅)))
      !! "./screenshots/b.json.png" = Some "image of ../examples/b.json".
Proof.
  split; [by vm_compute|].
  destruct (iteratePages_returns_only_after_every_sample quietEnv
              defaultSettings (boot ∅)
              (snd (iteratePages quietEnv defaultSettings (boot ∅))))
    as (entries & Hlist & _ & _ & Hwritten & _); [by vm_compute|].
  exists entries. split; [exact Hlist|].
  assert (entries = ["a.json"; "b.json"; "c.txt"]) as ->
    by (vm_compute in Hlist; congruence).
  split; [by vm_compute|].
  apply (Hwritten "b.json"). by vm_compute; right; left.
Defined.

Lemma takeImageStrip_exits_zero_only_after_everything_witness :
  fst (takeImageStrip (sampleEnv noArguments (fun _ => false))
         (boot manifestDisk)) = Exited 0 /\
  manifest_readable (boot manifestDisk) /\
  browser_open
    (snd (takeImageStrip (sampleEnv noArguments (fun _ => false))
            (boot manifestDisk))) = false.
Proof.
  split; [by vm_compute|].
  destruct (takeImageStrip_exits_zero_only_after_everything
              (sampleEnv noArguments (fun _ => false)) (boot manifestDisk))
    as (Hreadable & _ & settings & entries & _ & _ & _ & _ & _ & _ & Hclosed);
    [by vm_compute|].
  split; [exact Hreadable | exact Hclosed].
Defined.

Lemma caught_failure_skips_cleanup_witness :
  fst (takeImageStrip (sampleEnv noArguments (String.eqb "../examples/a.json"))
         (boot manifestDisk)) = Returned tt /\
  browser_open
    (snd (takeImageStrip (sampleEnv noArguments (String.eqb "../examples/a.json"))
            (boot manifestDisk))) = true.
Proof.
  destruct (caught_failure_skips_cleanup
              (sampleEnv noArguments (String.eqb "../examples/a.json"))
              (boot manifestDisk) manifestDisk_readable eq_refl)
    as [Hexit|(Hreturned & _ & Hopen)].
  - by vm_compute in Hexit.
  - split; [exact Hreturned|]. apply Hopen; [by eexists | reflexivity].
Defined.
